(** * Proyecto_Carga_PDF: the PDOT indexer and the context-synthesis service

    A shallow embedding of [src/indexar_pdot.py] (the offline indexer) and of
    [src/main.py] (the FastAPI query service), with the properties of the
    specification stated over it.

    Conventions.  A Python [str] is a list of Unicode code points.  A script
    or handler run yields the list of its observable events (what it prints,
    and which calls it makes on the file system and on the external
    libraries) next to its result.  The external libraries (PDF loader, text
    splitter, embeddings, Chroma, the chat model, the Unicode case tables of
    CPython and [traceback.format_exc]) are parameters of the model.
    Standard output encodes to UTF-8, the default of CPython 3: [print]
    raises [UnicodeEncodeError] on a string that holds a surrogate code
    point, as a JSON body can with an escape such as [\ud800]. *)

From Stdlib Require Import String Ascii NArith ZArith List Lia.
From stdpp Require Import base option list gmap.

Local Open Scope N_scope.

(* ===================================================================== *)
(** ** Python strings *)
(* ===================================================================== *)

Module PyStr.

Abbreviation str := (list N).

(** Source files are UTF-8: a literal is the sequence of code points its
    bytes decode to. *)
Fixpoint utf8_decode (bs : list N) : str :=
  match bs with
  | [] => []
  | b0 :: r0 =>
    if b0 <? 128 then b0 :: utf8_decode r0
    else if b0 <? 224 then
      match r0 with
      | b1 :: r1 =>
        N.lor (N.shiftl (N.land b0 31) 6) (N.land b1 63) :: utf8_decode r1
      | [] => []
      end
    else if b0 <? 240 then
      match r0 with
      | b1 :: b2 :: r2 =>
        N.lor (N.shiftl (N.land b0 15) 12)
              (N.lor (N.shiftl (N.land b1 63) 6) (N.land b2 63))
        :: utf8_decode r2
      | _ => []
      end
    else
      match r0 with
      | b1 :: b2 :: b3 :: r3 =>
        N.lor (N.shiftl (N.land b0 7) 18)
              (N.lor (N.shiftl (N.land b1 63) 12)
                     (N.lor (N.shiftl (N.land b2 63) 6) (N.land b3 63)))
        :: utf8_decode r3
      | _ => []
      end
  end.

Definition py (s : string) : str :=
  utf8_decode (map N_of_ascii (list_ascii_of_string s)).
Arguments py s%_string.

Definition nl : str := [10].

(** [sep.join(parts)] *)
Fixpoint join (sep : str) (parts : list str) : str :=
  match parts with
  | [] => []
  | [p] => p
  | p :: rest => p ++ sep ++ join sep rest
  end.

(** [bool(s)]: a string is truthy when it is not empty. *)
Definition truthy (s : str) : bool :=
  match s with [] => false | _ :: _ => true end.

(** [c.isspace()] for one code point: CPython's [_PyUnicode_IsWhitespace]. *)
Definition isspace (c : N) : bool :=
  ((9 <=? c) && (c <=? 13)) || ((28 <=? c) && (c <=? 32))
  || (c =? 133) || (c =? 160) || (c =? 5760)
  || ((8192 <=? c) && (c <=? 8202))
  || (c =? 8232) || (c =? 8233) || (c =? 8239) || (c =? 8287)
  || (c =? 12288).

Fixpoint lstrip (s : str) : str :=
  match s with
  | [] => []
  | c :: r => if isspace c then lstrip r else s
  end.

Definition rstrip (s : str) : str := rev (lstrip (rev s)).

(** [s.strip()] *)
Definition strip (s : str) : str := rstrip (lstrip s).

Definition isascii (s : str) : bool := forallb (fun c => c <? 128) s.

Definition ascii_lower (c : N) : N :=
  if (65 <=? c) && (c <=? 90) then c + 32 else c.

(** [s.lower()]: CPython lowers an ASCII string byte by byte and sends any
    other string through the Unicode case tables, here [unicode_lower]. *)
Definition lower (unicode_lower : str -> str) (s : str) : str :=
  if isascii s then map ascii_lower s else unicode_lower s.

(** [str(n)] for a natural number. *)
Fixpoint digits (fuel : nat) (n : N) (acc : str) : str :=
  match fuel with
  | O => acc
  | S fuel' =>
    let acc' := (48 + n mod 10) :: acc in
    if n <? 10 then acc' else digits fuel' (n / 10) acc'
  end.

Definition str_of_nat (n : nat) : str :=
  digits (S n) (N.of_nat n) [].

(** A surrogate code point, U+D800 to U+DFFF: the one kind of code point of
    a [str] that UTF-8 does not encode. *)
Definition es_sustituto (c : N) : bool := (55296 <=? c) && (c <=? 57343).

(** [s.encode("utf-8")] succeeds. *)
Definition codificable (s : str) : bool :=
  forallb (fun c => negb (es_sustituto c)) s.

(** Where the UTF-8 encoder stops: the first run of surrogates of [s], from
    [inicio_sustitutos s] up to (and without) [fin_sustitutos s]. *)
Fixpoint inicio_sustitutos (s : str) : nat :=
  match s with
  | [] => O
  | c :: r => if es_sustituto c then O else S (inicio_sustitutos r)
  end.

Fixpoint cuenta_sustitutos (s : str) : nat :=
  match s with
  | [] => O
  | c :: r => if es_sustituto c then S (cuenta_sustitutos r) else O
  end.

Definition fin_sustitutos (s : str) : nat :=
  (inicio_sustitutos s + cuenta_sustitutos (drop (inicio_sustitutos s) s))%nat.

(** ["%04x" % c] for a code point below 65536. *)
Definition hex_digito (d : N) : N := if d <? 10 then 48 + d else 87 + d.

Definition hex4 (c : N) : str :=
  [ hex_digito (c / 4096 mod 16); hex_digito (c / 256 mod 16);
    hex_digito (c / 16 mod 16); hex_digito (c mod 16) ].

End PyStr.
Import PyStr.

(* ===================================================================== *)
(** ** Data shared by the two programs *)
(* ===================================================================== *)

(** A metadata value of a LangChain document: text, or a page number. *)
Inductive MetaVal :=
| MStr (s : str)
| MInt (n : Z).

#[global] Instance MetaVal_eq_dec : EqDecision MetaVal.
Proof. solve_decision. Defined.

(** A LangChain [Document]: a chunk (or a page) with its metadata dict. *)
Record Document := mkDocument {
  page_content : str;
  metadata : gmap str MetaVal
}.

(** The exceptions that occur in the two programs.  [LibraryError] stands
    for whatever an external library raises (network, quota, parsing). *)
Inductive Exn :=
| HTTPException (status_code : Z) (detail : str)
| ValueError (msg : str)
| FileNotFoundError (msg : str)
| NameError (name : str)
| UnicodeEncodeError (objeto : str) (inicio fin : nat)
| LibraryError (clase msg : str).

(** [str(e)] *)
Definition exn_str (e : Exn) : str :=
  match e with
  | HTTPException c d =>
    (if (c <? 0)%Z then py "-" else []) ++ str_of_nat (Z.abs_nat c) ++ py ": " ++ d
  | ValueError m | FileNotFoundError m | LibraryError _ m => m
  | NameError n => py "name '" ++ n ++ py "' is not defined"
  | UnicodeEncodeError objeto inicio fin =>
    if (fin =? S inicio)%nat then
      py "'utf-8' codec can't encode character '\u"
      ++ hex4 (nth inicio objeto 0) ++ py "' in position "
      ++ str_of_nat inicio ++ py ": surrogates not allowed"
    else
      py "'utf-8' codec can't encode characters in position "
      ++ str_of_nat inicio ++ py "-" ++ str_of_nat (pred fin)
      ++ py ": surrogates not allowed"
  end.

(** A text that standard output can encode, with the proof that it can. *)
Record Imprimible := mkImprimible {
  texto :> str;
  texto_codificable : codificable texto = true
}.

(** What is on disk: the regular files by path, each with what
    [PyPDFLoader(path).load()] does on it (the pages, or an exception); the
    Chroma store directories by path, each with the chunks it holds; and
    the other paths that exist without being a regular file (a directory
    where a PDF is expected, say).  A path is in one of the three at most;
    the path of the store, when it exists, is that of a store directory. *)
Record Mundo := mkMundo {
  pdfs : gmap str (Exn + list Document);
  directorios : gmap str (list Document);
  no_archivos : gset str
}.

(** The process environment once [load_dotenv()] has run. *)
Abbreviation Entorno := (gmap str str).

(** [bool(os.getenv(k))]: the variable is set, and not to the empty string. *)
Definition getenv_truthy (env : Entorno) (k : str) : bool :=
  match env !! k with
  | Some v => truthy v
  | None => false
  end.

(** A value an expression evaluates to: a string, or some other object
    (named after the module-level name that holds it). *)
Inductive Valor :=
| VStr (s : str)
| VObj (nombre : string).

(** Observable events of a run, in order. *)
Inductive Evento :=
| Imprime (s : str)                              (* print(s) *)
| ConsultaRuta (ruta : str) (existe : bool)      (* os.path.exists(ruta) *)
| BorraArbol (ruta : str)                        (* shutil.rmtree(ruta) *)
| CargaPdf (ruta : str)                          (* PyPDFLoader(ruta).load() *)
| CreaChroma (docs : list Document) (dir : str)  (* Chroma.from_documents *)
| BuscaSimilitud (query : str) (k : nat) (fuente : str)
                                                 (* db.similarity_search *)
| InvocaLLM (entrada : Valor).                   (* llm.invoke(entrada) *)

(** Runs that print, call out and may raise: the events so far, and the
    value or the exception. *)
Definition M (A : Type) : Type := list Evento * (Exn + A).

Definition ret {A} (a : A) : M A := ([], inr a).

Definition raise {A} (e : Exn) : M A := ([], inl e).

Definition bind {A B} (m : M A) (f : A -> M B) : M B :=
  match m with
  | (l, inl e) => (l, inl e)
  | (l, inr a) => let '(l', r) := f a in (l ++ l', r)
  end.

(** [try: m  except Exception as e: h e] *)
Definition try_except {A} (m : M A) (h : Exn -> M A) : M A :=
  match m with
  | (l, inl e) => let '(l', r) := h e in (l ++ l', r)
  | (l, inr a) => (l, inr a)
  end.

(** [print(s)]: the line goes to standard output, unless the encoder
    refuses the string; then nothing is written and the call raises. *)
Definition print (s : str) : M unit :=
  if codificable s then ([Imprime s], inr tt)
  else raise (UnicodeEncodeError s (inicio_sustitutos s) (fin_sustitutos s)).

Definition eventos {A} (m : M A) : list Evento := fst m.

Definition resultado {A} (m : M A) : Exn + A := snd m.

Declare Scope py_scope.
Delimit Scope py_scope with py.
Notation "x <~ m ;; k" := (bind m (fun x => k))
  (at level 100, m at next level, right associativity) : py_scope.
Notation "m ;;; k" := (bind m (fun _ => k))
  (at level 100, right associativity) : py_scope.
Open Scope py_scope.

(** Python name resolution inside a function: the function's locals, then
    the module's globals; a name bound in neither (and not a builtin)
    raises [NameError]. *)
Fixpoint busca_local (locales : list (string * Valor)) (nombre : string)
  : option Valor :=
  match locales with
  | [] => None
  | (n, v) :: r => if String.eqb n nombre then Some v else busca_local r nombre
  end.

Definition carga_nombre (locales : list (string * Valor))
  (globales : list string) (nombre : string) : M Valor :=
  match busca_local locales nombre with
  | Some v => ret v
  | None =>
    if existsb (String.eqb nombre) globales then ret (VObj nombre)
    else raise (NameError (py nombre))
  end.

(* ===================================================================== *)
(** ** The query service, [src/main.py] *)
(* ===================================================================== *)

(** [class SolicitudContexto(BaseModel)] *)
Record SolicitudContexto := mkSolicitud {
  pregunta : str;
  entidad : str
}.

Record GoogleGenerativeAIEmbeddings := mkEmbeddings {
  emb_model : str;
  google_api_key : str
}.

(** A Chroma store opened on a directory: its collection of chunks. *)
Record Chroma := mkChroma {
  persist_directory : str;
  embedding_function : GoogleGenerativeAIEmbeddings;
  coleccion : list Document
}.

(** The chat model object (its [temperature=0.3] plays no part here). *)
Record ChatOpenAI := mkChatOpenAI {
  model : str;
  openai_api_key : str
}.

(** The module globals [db] and [llm]; both start as [None]. *)
Record Globals := mkGlobals {
  db : option Chroma;
  llm : option ChatOpenAI
}.

Definition globals_iniciales : Globals := {| db := None; llm := None |}.

Definition DIRECTORIO_DB : str := py "db_pdot".

(** The names bound at module level in [main.py]. *)
Definition globales_main : list string :=
  [ "os"; "traceback"; "FastAPI"; "HTTPException"; "BaseModel"; "ChatOpenAI";
    "GoogleGenerativeAIEmbeddings"; "Chroma"; "load_dotenv";
    "SolicitudContexto"; "DIRECTORIO_DB"; "GOOGLE_API_KEY"; "OPENAI_API_KEY";
    "app"; "db"; "llm"; "startup_event"; "extraer_contexto"; "read_root"
  ]%string.

(** The value a handler returns: a JSON object with string values. *)
Abbreviation Dict := (list (str * str)).

Inductive Body :=
| Json (d : Dict)
| Texto (s : str).

Record HttpResponse := mkHttp {
  status : Z;
  body : Body
}.

(** The answer of Starlette's [ServerErrorMiddleware] to an exception that
    nothing has handled. *)
Definition error_del_servidor : HttpResponse :=
  {| status := 500; body := Texto (py "Internal Server Error") |}.

(** [json.dumps(d, ensure_ascii=False).encode("utf-8")] succeeds. *)
Definition codificable_dict (d : Dict) : bool :=
  forallb (fun kv => codificable (fst kv) && codificable (snd kv)) d.

(** What FastAPI sends for the outcome of a handler: the returned object
    with status 200, an [HTTPException] as its status and detail, any other
    exception as a bare 500; so too when the JSON body cannot be encoded,
    since rendering the response then raises. *)
Definition respuesta_fastapi (r : Exn + Dict) : HttpResponse :=
  match r with
  | inr d =>
    if codificable_dict d then {| status := 200; body := Json d |}
    else error_del_servidor
  | inl (HTTPException c d) =>
    if codificable d then {| status := c; body := Json [(py "detail", d)] |}
    else error_del_servidor
  | inl _ => error_del_servidor
  end.

Section Servicio.

(** CPython's case mapping for strings with non-ASCII code points. *)
Variable unicode_lower : str -> str.

(** [traceback.format_exc()] while the exception is being handled: frames
    of source text and the last line of the exception, taken to be text
    that standard output can encode. *)
Variable format_exc : Exn -> Imprimible.

(** The embeddings provider, the distance Chroma ranks by, and the chat
    model: external calls, the first and the last of which may raise. *)
Variable Embedding : Type.
Variable embed_query : GoogleGenerativeAIEmbeddings -> str -> Exn + Embedding.
Variable distancia : Embedding -> str -> N.
Variable llm_invoke : ChatOpenAI -> Valor -> Exn + str.

(** The metadata filter [{"fuente": fuente}]. *)
Definition coincide (fuente : str) (d : Document) : Prop :=
  metadata d !! py "fuente" = Some (MStr fuente).

#[global] Instance coincide_dec fuente d : Decision (coincide fuente d).
Proof. unfold coincide. apply _. Defined.

Fixpoint insertar (v : Embedding) (d : Document) (l : list Document)
  : list Document :=
  match l with
  | [] => [d]
  | x :: r =>
    if distancia v (page_content d) <? distancia v (page_content x)
    then d :: l
    else x :: insertar v d r
  end.

(** The chunks nearest first. *)
Definition ordenar (v : Embedding) (l : list Document) : list Document :=
  foldr (insertar v) [] l.

(** [db.similarity_search(query, k=k, filter={"fuente": fuente})]: embed the
    query, keep the chunks the filter matches, return the [k] nearest. *)
Definition similarity_search (d : Chroma) (query : str) (k : nat)
  (fuente : str) : M (list Document) :=
  ([BuscaSimilitud query k fuente],
   match embed_query (embedding_function d) query with
   | inl e => inl e
   | inr v => inr (take k (ordenar v (filter (coincide fuente) (coleccion d))))
   end).

(** [llm.invoke(entrada).content] *)
Definition invoke (l : ChatOpenAI) (entrada : Valor) : M str :=
  ([InvocaLLM entrada], llm_invoke l entrada).

(** The f-string bound at line 93 of [main.py]. *)
Definition prompt_de_sintesis (entidad pregunta contexto_bruto : str) : str :=
  concat
    [ nl;
      py "        Actúa como un analista técnico experto en el PDOT de la entidad: ";
      entidad; py "."; nl;
      py "        A continuación se te proporciona un texto en bruto extraído del documento de planificación de ";
      entidad; py " y una pregunta del usuario. "; nl;
      py "        Tu tarea es sintetizar la información del texto en bruto para responder a la pregunta de forma clara y concisa.";
      nl; nl;
      py "        PREGUNTA DEL USUARIO:"; nl;
      py "        "; pregunta; nl; nl;
      py "        TEXTO EN BRUTO EXTRAÍDO (Fuente: "; entidad; py "):"; nl;
      py "        "; contexto_bruto; nl; nl;
      py "        RESPUESTA SINTETISADA (Enfocada en "; entidad; py "):"; nl;
      py "        " ].

(** The f-string printed at line 67 of [main.py]. *)
Definition linea_de_solicitud (entidad pregunta : str) : str :=
  py ">>> Solicitud recibida: Entidad='" ++ entidad
  ++ py "', Pregunta='" ++ pregunta ++ py "'".

Definition mensaje_sin_informacion (entidad : str) : str :=
  py "No se encontró información específica para la entidad '" ++ entidad
  ++ py "' sobre la consulta realizada.".

(** The body of the [try] block of [extraer_contexto] (lines 76-111). *)
Definition procesar (d : Chroma) (l : ChatOpenAI) (pregunta entidad : str)
  : M Dict :=
  print (py ">>> Buscando contexto en ChromaDB SÓLO con la etiqueta: 'fuente': '"
         ++ entidad ++ py "'...") ;;;
  docs_relevantes <~ similarity_search d pregunta 10 entidad ;;
  match docs_relevantes with
  | [] =>
    print (py ">>> No se encontró contexto relevante PARA ESA ENTIDAD.") ;;;
    ret [(py "contexto", mensaje_sin_informacion entidad)]
  | _ :: _ =>
    let contexto_bruto :=
      join (py "

---

") (map page_content docs_relevantes) in
    let prompt_sinitesis :=
      prompt_de_sintesis entidad pregunta contexto_bruto in
    let locales :=
      [ ("solicitud", VObj "solicitud");
        ("pregunta", VStr pregunta); ("entidad", VStr entidad);
        ("docs_relevantes", VObj "docs_relevantes");
        ("contexto_bruto", VStr contexto_bruto);
        ("prompt_sinitesis", VStr prompt_sinitesis) ]%string in
    print (py ">>> Sintetizando la respuesta con GPT-4o (Contexto: "
           ++ entidad ++ py ")...") ;;;
    argumento <~ carga_nombre locales globales_main "prompt_sintesis" ;;
    respuesta_final <~ invoke l argumento ;;
    print (py ">>> Respuesta final generada.") ;;;
    ret [(py "contexto", respuesta_final)]
  end.

(** The [except Exception as e] clause (lines 113-116). *)
Definition manejar_excepcion (e : Exn) : M Dict :=
  let error_detallado : str := format_exc e in
  print (py "!!! ERROR DURANTE EL PROCESAMIENTO DE LA SOLICITUD: "
         ++ error_detallado) ;;;
  raise (HTTPException 500
           (py "Error interno del servidor: " ++ exn_str e ++ nl
            ++ error_detallado)).

(** [async def extraer_contexto(solicitud)] *)
Definition extraer_contexto (g : Globals) (solicitud : SolicitudContexto)
  : M Dict :=
  let pregunta := pregunta solicitud in
  let entidad := strip (lower unicode_lower (entidad solicitud)) in
  print (linea_de_solicitud entidad pregunta) ;;;
  match db g, llm g with
  | Some d, Some l =>
    if negb (truthy entidad) then
      raise (HTTPException 400
               (py "Error: El campo 'entidad' no puede estar vacío."))
    else
      try_except (procesar d l pregunta entidad) manejar_excepcion
  | _, _ =>
    raise (HTTPException 503
             (py "Servicio no disponible: Los componentes de IA no están cargados."))
  end.

(** [POST /extraer-contexto-pdot]: the events of the handler and the HTTP
    response FastAPI sends for it. *)
Definition post_extraer_contexto (g : Globals) (solicitud : SolicitudContexto)
  : list Evento * HttpResponse :=
  let r := extraer_contexto g solicitud in
  (eventos r, respuesta_fastapi (resultado r)).

(** [def startup_event()]: the globals it leaves when it returns, or the
    exception it re-raises, on which the application does not start. *)
Definition startup_event (env : Entorno) (w : Mundo) : M Globals :=
  try_except
    (print (py ">>> Evento de inicio: Iniciando carga de componentes...") ;;;
     if negb (getenv_truthy env (py "GOOGLE_API_KEY")
              && getenv_truthy env (py "OPENAI_API_KEY")) then
       raise (ValueError
                (py "!!! ERROR FATAL: Faltan claves (GOOGLE o OPENAI) en las variables de entorno."))
     else
       print (py ">>> Claves de API validadas.") ;;;
       print (py ">>> Cargando Embeddings de Google...") ;;;
       let embeddings :=
         {| emb_model := py "models/text-embedding-004";
            google_api_key := default [] (env !! py "GOOGLE_API_KEY") |} in
       print (py ">>> Cargando Base de Datos Chroma desde '" ++ DIRECTORIO_DB
              ++ py "'...") ;;;
       match directorios w !! DIRECTORIO_DB with
       | None =>
         ([ConsultaRuta DIRECTORIO_DB false], inr tt) ;;;
         raise (FileNotFoundError
                  (py "!!! ERROR FATAL: No se encuentra el directorio '"
                   ++ DIRECTORIO_DB
                   ++ py "'. ¿Olvidaste subir la base de datos?"))
       | Some chunks =>
         ([ConsultaRuta DIRECTORIO_DB true], inr tt) ;;;
         let db := {| persist_directory := DIRECTORIO_DB;
                      embedding_function := embeddings;
                      coleccion := chunks |} in
         print (py ">>> Base de Datos Chroma cargada.") ;;;
         print (py ">>> Cargando LLM (GPT-4o)...") ;;;
         let llm := {| model := py "gpt-4o";
                       openai_api_key :=
                         default [] (env !! py "OPENAI_API_KEY") |} in
         print (py ">>> ¡Todos los componentes cargados con éxito! Servidor listo.") ;;;
         ret {| db := Some db; llm := Some llm |}
       end)
    (fun e =>
       print (py "!!! ERROR CRÍTICO DURANTE EL INICIO: " ++ format_exc e) ;;;
       raise e).

End Servicio.

(** [GET /]: [read_root()] *)
Definition read_root : Dict :=
  [(py "status",
    py "El motor de SÍNTESIS de contexto PDOT (con ChromaDB) está en línea.")].

(* ===================================================================== *)
(** ** The indexer, [src/indexar_pdot.py] *)
(* ===================================================================== *)

Definition DIRECTORIO_PERSISTENTE : str := py "db_pdot".

(** The label-to-file table, in the order the [for] loop visits it. *)
Definition MAPA_DE_PDOTS : list (str * str) :=
  [ (py "paltas", py "PDOT_Paltas.pdf");
    (py "pindal", py "PDOT_Pindal.pdf");
    (py "catamayo", py "PDyOT_Catamayo.pdf");
    (py "chaguarpamba", py "PDyOT_Chaguarpamba.pdf") ].

(** How the script ends: it runs to its last line, calls [exit()], or dies
    of an exception that nothing catches. *)
Inductive Fin :=
| Completado
| Salida
| Excepcion (e : Exn).

(** The state the script threads: the disk, what it has printed and called
    so far, the list [todos_los_fragmentos], and the exception that has left
    the loop uncaught, if one has. *)
Record Estado := mkEstado {
  mundo : Mundo;
  salida : list Evento;
  todos_los_fragmentos : list Document;
  excepcion : option Exn
}.

Definition emite (evs : list Evento) (s : Estado) : Estado :=
  {| mundo := mundo s;
     salida := salida s ++ evs;
     todos_los_fragmentos := todos_los_fragmentos s;
     excepcion := excepcion s |}.

(** An exception that no [try] of the script encloses. *)
Definition interrumpe (e : Exn) (s : Estado) : Estado :=
  {| mundo := mundo s;
     salida := salida s;
     todos_los_fragmentos := todos_los_fragmentos s;
     excepcion := Some e |}.

(** [os.path.exists(ruta)] for the path of an input file. *)
Definition existe (w : Mundo) (ruta : str) : bool :=
  bool_decide (is_Some (pdfs w !! ruta)) || bool_decide (ruta ∈ no_archivos w).

(** [shutil.rmtree(dir)] *)
Definition rmtree (dir : str) (w : Mundo) : Mundo :=
  {| pdfs := pdfs w;
     directorios := delete dir (directorios w);
     no_archivos := no_archivos w |}.

(** [Chroma.from_documents(documents, embedding, persist_directory)]: opens
    (or creates) the store in the directory and adds the documents to the
    collection it finds there. *)
Definition Chroma_from_documents (documents : list Document)
  (persist_directory : str) (w : Mundo) : Mundo :=
  {| pdfs := pdfs w;
     directorios :=
       <[persist_directory :=
           default [] (directorios w !! persist_directory) ++ documents]>
         (directorios w);
     no_archivos := no_archivos w |}.

(** The two assignments of lines 74-75 on one fragment. *)
Definition etiquetar (etiqueta nombre_archivo_limpio : str) (frag : Document)
  : Document :=
  {| page_content := page_content frag;
     metadata :=
       <[py "archivo_origen" := MStr nombre_archivo_limpio]>
         (<[py "fuente" := MStr etiqueta]> (metadata frag)) |}.

Section Indexador.

(** [RecursiveCharacterTextSplitter(chunk_size=1500, chunk_overlap=200,
    length_function=len).split_text]: the chunks of one text. *)
Variable split_text : str -> list str.

(** [text_splitter.split_documents(documentos)]: every chunk of every page,
    with a copy of the page's metadata. *)
Definition split_documents (documentos : list Document) : list Document :=
  flat_map
    (fun doc =>
       map (fun chunk => {| page_content := chunk; metadata := metadata doc |})
           (split_text (page_content doc)))
    documentos.

(** FASE 0 (lines 36-39). *)
Definition fase0 (s : Estado) : Estado :=
  match directorios (mundo s) !! DIRECTORIO_PERSISTENTE with
  | Some _ =>
    let s := emite [ConsultaRuta DIRECTORIO_PERSISTENTE true;
                    Imprime (py ">>> Borrando la base de datos antigua '"
                             ++ DIRECTORIO_PERSISTENTE ++ py "'...")] s in
    let s := {| mundo := rmtree DIRECTORIO_PERSISTENTE (mundo s);
                salida := salida s ++ [BorraArbol DIRECTORIO_PERSISTENTE];
                todos_los_fragmentos := todos_los_fragmentos s;
                excepcion := excepcion s |} in
    emite [Imprime (py ">>> Base de datos antigua borrada.")] s
  | None => emite [ConsultaRuta DIRECTORIO_PERSISTENTE false] s
  end.

(** The line of the [except] clause of line 59. *)
Definition texto_aviso_fallo (nombre_archivo_limpio : str) (e : Exn) : str :=
  py "!!! ERROR al cargar '" ++ nombre_archivo_limpio
  ++ py "': " ++ exn_str e ++ py ". Saltando este archivo.".

(** One turn of the [for] loop of FASE 1 (lines 46-78).  The lines it
    prints hold names of the table and counts, which standard output
    encodes; the line of the [except] clause holds the text of the
    exception as well.  The loader is built at line 55, before the [try] of
    lines 56-60: what its constructor raises on a path that is not a
    regular file is not caught, and neither is what the [print] of the
    [except] clause raises on a message it cannot encode. *)
Definition procesar_pdf (s : Estado) (entrada : str * str) : Estado :=
  let '(etiqueta, nombre_archivo) := entrada in
  let s := emite [Imprime (nl ++ py "--- Procesando: " ++ nombre_archivo
                           ++ py " (Etiqueta: '" ++ etiqueta ++ py "') ---")] s in
  let nombre_archivo_limpio := strip nombre_archivo in
  if negb (existe (mundo s) nombre_archivo_limpio) then
    emite [ConsultaRuta nombre_archivo_limpio false;
           Imprime (py "!!! ADVERTENCIA: No se encontró el archivo '"
                    ++ nombre_archivo_limpio ++ py "'. Saltando...")] s
  else
    let s := emite [ConsultaRuta nombre_archivo_limpio true;
                    Imprime (py "    Cargando archivo: "
                             ++ nombre_archivo_limpio ++ py "...")] s in
    match pdfs (mundo s) !! nombre_archivo_limpio with
    | None =>
      interrumpe (ValueError (py "File path " ++ nombre_archivo_limpio
                              ++ py " is not a valid file or url")) s
    | Some carga =>
      let s := emite [CargaPdf nombre_archivo_limpio] s in
      match carga with
      | inl e =>
        let aviso := texto_aviso_fallo nombre_archivo_limpio e in
        if codificable aviso then emite [Imprime aviso] s
        else interrumpe (UnicodeEncodeError aviso (inicio_sustitutos aviso)
                           (fin_sustitutos aviso)) s
      | inr documentos =>
        let s := emite [Imprime (py "    Cargado. "
                                 ++ str_of_nat (length documentos)
                                 ++ py " páginas encontradas.")] s in
        let fragmentos := split_documents documentos in
        let s := emite [Imprime (py ">>> Dividido en "
                                 ++ str_of_nat (length fragmentos)
                                 ++ py " fragmentos.")] s in
        let fragmentos :=
          map (etiquetar etiqueta nombre_archivo_limpio) fragmentos in
        let s := {| mundo := mundo s;
                    salida := salida s;
                    todos_los_fragmentos := todos_los_fragmentos s ++ fragmentos;
                    excepcion := excepcion s |} in
        emite [Imprime (py ">>> Fragmentos de '" ++ etiqueta
                        ++ py "' etiquetados y listos.")] s
      end
    end.

(** The [for] loop over a table: a turn that lets an exception through is
    the last one. *)
Fixpoint fase1 (mapa : list (str * str)) (s : Estado) : Estado :=
  match mapa with
  | [] => s
  | entrada :: resto =>
    let s := procesar_pdf s entrada in
    match excepcion s with
    | Some _ => s
    | None => fase1 resto s
    end
  end.

(** FASES 2 and 3 (lines 85-104). *)
Definition fase3 (s : Estado) : Estado :=
  let s := emite [Imprime (nl ++ py ">>> Total de fragmentos de todos los PDFs: "
                           ++ str_of_nat (length (todos_los_fragmentos s)));
                  Imprime (py ">>> Configurando el modelo de embeddings de Google...");
                  Imprime (py ">>> Modelo de embeddings listo.");
                  Imprime (py ">>> Creando y guardando la nueva base de datos en '"
                           ++ DIRECTORIO_PERSISTENTE ++ py "'...");
                  Imprime (py ">>> Este proceso puede tardar varios minutos...")] s in
  let s := {| mundo := Chroma_from_documents (todos_los_fragmentos s)
                         DIRECTORIO_PERSISTENTE (mundo s);
              salida := salida s ++ [CreaChroma (todos_los_fragmentos s)
                                       DIRECTORIO_PERSISTENTE];
              todos_los_fragmentos := todos_los_fragmentos s;
              excepcion := excepcion s |} in
  emite [Imprime (nl ++ py "*** ¡PROCESO DE INDEXACION LOCAL COMPLETADO CON EXITO! ***");
         Imprime (py "*** Tu nueva biblioteca '" ++ DIRECTORIO_PERSISTENTE
                  ++ py "' está lista. ***")] s.

(** The script over any table in place of [MAPA_DE_PDOTS]. *)
Definition indexar_con (mapa : list (str * str)) (env : Entorno) (w : Mundo)
  : Estado * Fin :=
  let s := {| mundo := w;
              salida := [Imprime (py ">>> Variables de entorno cargadas.");
                         Imprime (py ">>> INICIANDO EL PROCESO DE INDEXACION LOCAL (ChromaDB)...")];
              todos_los_fragmentos := [];
              excepcion := None |} in
  if negb (getenv_truthy env (py "GOOGLE_API_KEY")) then
    (emite [Imprime (py "!!! ERROR: No se encontró la GOOGLE_API_KEY en el archivo .env")] s,
     Salida)
  else
    let s := fase0 s in
    let s := emite [Imprime (py ">>> Procesando "
                             ++ str_of_nat (length mapa) ++ py " PDOTs...")] s in
    let s := fase1 mapa s in
    match excepcion s with
    | Some e => (s, Excepcion e)
    | None =>
      match todos_los_fragmentos s with
      | [] =>
        (emite [Imprime (py "!!! ERROR FATAL: No se procesó ningún documento.")] s,
         Salida)
      | _ :: _ => (fase3 s, Completado)
      end
    end.

(** The script [indexar_pdot.py]. *)
Definition indexar_pdot (env : Entorno) (w : Mundo) : Estado * Fin :=
  indexar_con MAPA_DE_PDOTS env w.

End Indexador.

(* ===================================================================== *)
(** ** Vocabulary of the specification *)
(* ===================================================================== *)

(** The labels of the static table. *)
Definition etiquetas : list str := map fst MAPA_DE_PDOTS.

(** The service is serving with globals [g]: [startup_event] has returned
    them (when it raises, the application does not start). *)
Definition en_servicio (format_exc : Exn -> Imprimible) (env : Entorno) (w : Mundo)
  (g : Globals) : Prop :=
  resultado (startup_event format_exc env w) = inr g.

(** A string of white space only. *)
Definition solo_espacios (s : str) : Prop := Forall (fun c => isspace c = true) s.


(** An entry of the table whose file is missing, or whose load raises. *)
Definition no_cargable (w : Mundo) (nombre_archivo : str) : Prop :=
  pdfs w !! strip nombre_archivo = None \/
  exists e, pdfs w !! strip nombre_archivo = Some (inl e).

(** Every chunk of the store carries one of the labels of the table. *)
Definition almacen_etiquetado (w : Mundo) : Prop :=
  forall chunks, directorios w !! DIRECTORIO_PERSISTENTE = Some chunks ->
    Forall (fun d => exists et, et ∈ etiquetas /\
                                metadata d !! py "fuente" = Some (MStr et))
           chunks.

(** The first line a turn of the loop prints for an entry. *)
Definition cabecera (entrada : str * str) : Evento :=
  Imprime (nl ++ py "--- Procesando: " ++ snd entrada
           ++ py " (Etiqueta: '" ++ fst entrada ++ py "') ---").

(** The warning for a missing file, and the one for a file that fails. *)
Definition aviso_faltante (nombre_archivo : str) : Evento :=
  Imprime (py "!!! ADVERTENCIA: No se encontró el archivo '"
           ++ strip nombre_archivo ++ py "'. Saltando...").

Definition aviso_fallo (nombre_archivo : str) (e : Exn) : Evento :=
  Imprime (texto_aviso_fallo (strip nombre_archivo) e).

(** The disks on which no turn of the loop over [mapa] lets an exception
    through: no path of the table exists without being a regular file, and
    the message of every loading error can be printed. *)
Definition sin_tropiezos (w : Mundo) (mapa : list (str * str)) : Prop :=
  forall entrada, entrada ∈ mapa ->
    (pdfs w !! strip (snd entrada) = None ->
     strip (snd entrada) ∉ no_archivos w) /\
    (forall e, pdfs w !! strip (snd entrada) = Some (inl e) ->
               codificable (texto_aviso_fallo (strip (snd entrada)) e) = true).

(** The state the script starts the phases from. *)
Definition estado_inicial (w : Mundo) : Estado :=
  {| mundo := w;
     salida := [Imprime (py ">>> Variables de entorno cargadas.");
                Imprime (py ">>> INICIANDO EL PROCESO DE INDEXACION LOCAL (ChromaDB)...")];
     todos_los_fragmentos := [];
     excepcion := None |}.

(** The state the loop of FASE 1 starts from. *)
Definition antes_del_bucle (mapa : list (str * str)) (w : Mundo) : Estado :=
  emite [Imprime (py ">>> Procesando "
                  ++ str_of_nat (length mapa) ++ py " PDOTs...")]
        (fase0 (estado_inicial w)).

(** The script has not died of an uncaught exception. *)
Definition sin_excepcion (f : Fin) : Prop :=
  match f with
  | Excepcion _ => False
  | Completado | Salida => True
  end.

(** An event that examines an input file (not the store directory). *)
Definition examina_archivo (ev : Evento) : Prop :=
  match ev with
  | ConsultaRuta ruta _ => ruta <> DIRECTORIO_PERSISTENTE
  | CargaPdf _ => True
  | _ => False
  end.

Section VocabularioIndexador.

Variable split_text : str -> list str.

(** The tagged chunks one entry of the table contributes on a disk. *)
Definition fragmentos_de (w : Mundo) (entrada : str * str) : list Document :=
  match pdfs w !! strip (snd entrada) with
  | Some (inr documentos) =>
    map (etiquetar (fst entrada) (strip (snd entrada)))
        (split_documents split_text documentos)
  | _ => []
  end.

(** The chunks a run over [mapa] collects on a disk. *)
Definition fragmentos_del_mapa (mapa : list (str * str)) (w : Mundo)
  : list Document :=
  flat_map (fragmentos_de w) mapa.

(** What one turn of the loop prints and calls on a disk. *)
Definition eventos_de (w : Mundo) (entrada : str * str) : list Evento :=
  salida (procesar_pdf split_text
            {| mundo := w; salida := []; todos_los_fragmentos := [];
               excepcion := None |} entrada).

(** The exception one turn of the loop lets through on a disk, if any. *)
Definition tropiezo (w : Mundo) (entrada : str * str) : option Exn :=
  excepcion (procesar_pdf split_text
               {| mundo := w; salida := []; todos_los_fragmentos := [];
                  excepcion := None |} entrada).

(** The entries the loop visits on a disk: those of the table, in order,
    up to the first whose turn lets an exception through. *)
Fixpoint recorridas (w : Mundo) (mapa : list (str * str)) : list (str * str) :=
  match mapa with
  | [] => []
  | entrada :: resto =>
    entrada :: match tropiezo w entrada with
               | Some _ => []
               | None => recorridas w resto
               end
  end.

(** The exception the loop over [mapa] dies of on a disk, if any. *)
Fixpoint primer_tropiezo (w : Mundo) (mapa : list (str * str)) : option Exn :=
  match mapa with
  | [] => None
  | entrada :: resto =>
    match tropiezo w entrada with
    | Some e => Some e
    | None => primer_tropiezo w resto
    end
  end.

(** The disks the store of which, if any, the indexer has written: no store
    at first; then any number of indexer runs and changes of the input
    paths. *)
Inductive construido : Mundo -> Prop :=
| construido_sin_indice w :
    directorios w !! DIRECTORIO_PERSISTENTE = None -> construido w
| construido_indexar env w :
    construido w -> construido (mundo (fst (indexar_pdot split_text env w)))
| construido_pdfs w archivos otras :
    construido w ->
    construido {| pdfs := archivos; directorios := directorios w;
                  no_archivos := otras |}.

End VocabularioIndexador.

(** *** Concrete inputs *)

Definition env_completo : Entorno :=
  <[py "GOOGLE_API_KEY" := py "clave-google"]>
    (<[py "OPENAI_API_KEY" := py "clave-openai"]> ∅).

Definition env_sin_openai : Entorno :=
  <[py "GOOGLE_API_KEY" := py "clave-google"]> ∅.

Definition env_sin_claves : Entorno := ∅.

Definition pagina (ruta texto : string) (n : Z) : Document :=
  {| page_content := py texto;
     metadata := <[py "source" := MStr (py ruta)]> (<[py "page" := MInt n]> ∅) |}.

(** A disk with one of the four PDFs, of one page, and no store. *)
Definition mundo_paltas : Mundo :=
  {| pdfs := <[py "PDOT_Paltas.pdf" :=
                 inr [pagina "PDOT_Paltas.pdf" "Plan de desarrollo de Paltas" 0]]> ∅;
     directorios := ∅;
     no_archivos := ∅ |}.

(** A disk with none of the PDFs and a store left by an earlier run. *)
Definition mundo_sin_pdfs : Mundo :=
  {| pdfs := ∅;
     directorios :=
       <[DIRECTORIO_PERSISTENTE :=
           [etiquetar (py "paltas") (py "PDOT_Paltas.pdf")
              (pagina "PDOT_Paltas.pdf" "texto antiguo" 0)]]> ∅;
     no_archivos := ∅ |}.

(** A disk with the Paltas PDF and a store left by an earlier run. *)
Definition mundo_almacen_antiguo : Mundo :=
  {| pdfs := pdfs mundo_paltas;
     directorios := directorios mundo_sin_pdfs;
     no_archivos := ∅ |}.

(** The disk of [mundo_almacen_antiguo] with a directory where the Pindal
    PDF is expected. *)
Definition mundo_con_carpeta : Mundo :=
  {| pdfs := pdfs mundo_paltas;
     directorios := directorios mundo_sin_pdfs;
     no_archivos := {[ py "PDOT_Pindal.pdf" ]} |}.

(** A splitter for texts that fit in one chunk. *)
Definition un_fragmento (texto : str) : list str := [texto].

Definition mundo_indexado : Mundo :=
  mundo (fst (indexar_pdot un_fragmento env_completo mundo_paltas)).

(** A text with [?] in place of what standard output cannot encode. *)
Definition reemplaza (s : str) : str :=
  map (fun c => if es_sustituto c then 63 else c) s.

Lemma reemplaza_codificable s : codificable (reemplaza s) = true.
Proof.
  induction s as [| c s IH]; [reflexivity |].
  simpl. rewrite IH, andb_true_r.
  destruct (es_sustituto c) eqn:Hc; [reflexivity | rewrite Hc; reflexivity].
Defined.

Definition traza (e : Exn) : Imprimible :=
  {| texto := reemplaza (py "Traceback (most recent call last): " ++ exn_str e);
     texto_codificable := reemplaza_codificable _ |}.

Definition embed_nulo (_ : GoogleGenerativeAIEmbeddings) (_ : str)
  : Exn + unit := inr tt.

Definition embed_caido (_ : GoogleGenerativeAIEmbeddings) (_ : str)
  : Exn + unit := inl (LibraryError (py "ConnectError") (py "sin red")).

(** An embeddings provider whose error message holds a surrogate. *)
Definition embed_ilegible (_ : GoogleGenerativeAIEmbeddings) (_ : str)
  : Exn + unit := inl (LibraryError (py "ValueError") [55296]).

Definition distancia_nula (_ : unit) (_ : str) : N := 0.

Definition llm_eco (_ : ChatOpenAI) (_ : Valor) : Exn + str :=
  inr (py "respuesta generada").

Definition chroma_indexado : Chroma :=
  {| persist_directory := DIRECTORIO_DB;
     embedding_function :=
       {| emb_model := py "models/text-embedding-004";
          google_api_key := py "clave-google" |};
     coleccion := default [] (directorios mundo_indexado !! DIRECTORIO_DB) |}.

Definition chat_ejemplo : ChatOpenAI :=
  {| model := py "gpt-4o"; openai_api_key := py "clave-openai" |}.

Definition globals_indexado : Globals :=
  {| db := Some chroma_indexado; llm := Some chat_ejemplo |}.

(** The service of the concrete inputs. *)
Definition post_ejemplo (embed : GoogleGenerativeAIEmbeddings -> str -> Exn + unit)
  (g : Globals) (p e : string) : list Evento * HttpResponse :=
  post_extraer_contexto id traza unit embed distancia_nula llm_eco g
    (mkSolicitud (py p) (py e)).

(** An event that is a call out of the process: to the embeddings provider
    (through the search) or to the chat model. *)
Definition es_llamada_externa (ev : Evento) : Prop :=
  match ev with
  | BuscaSimilitud _ _ _ | InvocaLLM _ => True
  | _ => False
  end.

(** Closes [x ∉ [a; b; c]] when [x] differs from each by its constructor. *)
Ltac no_en_lista :=
  rewrite ?elem_of_cons, ?elem_of_nil; intuition discriminate.

(* ===================================================================== *)
(** ** Checks of the model on concrete inputs *)
(* ===================================================================== *)

Example py_ascii : py "paltas" = [112; 97; 108; 116; 97; 115].
Proof. reflexivity. Qed.

Example py_acento : py "ó" = [243].
Proof. reflexivity. Qed.

Example strip_lower_paltas :
  strip (lower id (py "  PaLtAs
 ")) = py "paltas".
Proof. reflexivity. Qed.

Example str_of_nat_1500 : str_of_nat 1500 = py "1500".
Proof. reflexivity. Qed.

Example directorios_iguales : DIRECTORIO_DB = DIRECTORIO_PERSISTENTE.
Proof. reflexivity. Qed.

Example indexar_paltas_completa :
  snd (indexar_pdot un_fragmento env_completo mundo_paltas) = Completado /\
  length (todos_los_fragmentos
            (fst (indexar_pdot un_fragmento env_completo mundo_paltas))) = 1%nat.
Proof. split; vm_compute; reflexivity. Qed.

Example startup_indexado :
  resultado (startup_event traza env_completo mundo_indexado)
  = inr globals_indexado.
Proof. vm_compute. reflexivity. Qed.

Example startup_sin_indice :
  resultado (startup_event traza env_completo mundo_paltas)
  = inl (FileNotFoundError
           (py "!!! ERROR FATAL: No se encuentra el directorio 'db_pdot'. ¿Olvidaste subir la base de datos?")).
Proof. vm_compute. reflexivity. Qed.

Example post_loja_sin_informacion :
  snd (post_ejemplo embed_nulo globals_indexado "¿Qué proyectos hay?" "Loja")
  = {| status := 200;
       body := Json [(py "contexto",
                      py "No se encontró información específica para la entidad 'loja' sobre la consulta realizada.")] |}.
Proof. vm_compute. reflexivity. Qed.

Example post_sin_componentes :
  status (snd (post_ejemplo embed_nulo globals_iniciales "q" "paltas")) = 503%Z.
Proof. vm_compute. reflexivity. Qed.

Example post_embeddings_caidos :
  status (snd (post_ejemplo embed_caido globals_indexado "q" "paltas")) = 500%Z.
Proof. vm_compute. reflexivity. Qed.

Example print_sustituto :
  print (py "abc" ++ [55296]) =
  ([], inl (UnicodeEncodeError (py "abc" ++ [55296]) 3 4)).
Proof. reflexivity. Qed.

Example print_dos_sustitutos :
  print (py "ab" ++ [57343; 56320] ++ py "c") =
  ([], inl (UnicodeEncodeError (py "ab" ++ [57343; 56320] ++ py "c") 2 4)).
Proof. reflexivity. Qed.

Example exn_str_sustitutos :
  exn_str (UnicodeEncodeError (py "ab" ++ [57343; 56320] ++ py "c") 2 4)
  = py "'utf-8' codec can't encode characters in position 2-3: surrogates not allowed".
Proof. vm_compute. reflexivity. Qed.

Example post_pregunta_sustituto :
  post_extraer_contexto id traza unit embed_nulo distancia_nula llm_eco
    globals_indexado (mkSolicitud [55296] (py "paltas"))
  = ([], error_del_servidor).
Proof. vm_compute. reflexivity. Qed.

Example post_error_ilegible :
  snd (post_ejemplo embed_ilegible globals_indexado "q" "paltas")
  = error_del_servidor.
Proof. vm_compute. reflexivity. Qed.

Example indexar_con_carpeta :
  snd (indexar_pdot un_fragmento env_completo mundo_con_carpeta)
  = Excepcion (ValueError (py "File path PDOT_Pindal.pdf is not a valid file or url")) /\
  directorios (mundo (fst (indexar_pdot un_fragmento env_completo
                             mundo_con_carpeta)))
  !! DIRECTORIO_PERSISTENTE = None /\
  last (salida (fst (indexar_pdot un_fragmento env_completo mundo_con_carpeta)))
  = Some (Imprime (py "    Cargando archivo: PDOT_Pindal.pdf...")).
Proof. split; [| split]; vm_compute; reflexivity. Qed.

(* ===================================================================== *)
(** ** Properties of the query service *)
(* ===================================================================== *)

Arguments py : simpl never.
Arguments strip : simpl never.
Arguments str_of_nat : simpl never.
Arguments existe : simpl never.
Arguments texto_aviso_fallo : simpl never.

Lemma codificable_app a b :
  codificable (a ++ b) = codificable a && codificable b.
Proof. apply forallb_app. Qed.

(** Closes [codificable s = true] for a text put together from literals,
    tracebacks and strings known to be encodable. *)
Ltac codif :=
  repeat (rewrite codificable_app; apply andb_true_intro; split);
  first [ assumption | apply texto_codificable | vm_compute; reflexivity ].

Lemma bind_print {A} (s : str) (k : M A) :
  codificable s = true ->
  (print s ;;; k) = (Imprime s :: eventos k, resultado k).
Proof. intros H. unfold print. rewrite H. destruct k as [l r]. reflexivity. Qed.

Lemma bind_print_falla {A} (s : str) (k : M A) :
  codificable s = false ->
  (print s ;;; k) =
  ([], inl (UnicodeEncodeError s (inicio_sustitutos s) (fin_sustitutos s))).
Proof. intros H. unfold print. rewrite H. reflexivity. Qed.

Lemma linea_de_solicitud_codificable e p :
  codificable (linea_de_solicitud e p) = codificable e && codificable p.
Proof.
  unfold linea_de_solicitud. rewrite !codificable_app.
  replace (codificable (py ">>> Solicitud recibida: Entidad='")) with true
    by (vm_compute; reflexivity).
  replace (codificable (py "', Pregunta='")) with true
    by (vm_compute; reflexivity).
  replace (codificable (py "'")) with true by (vm_compute; reflexivity).
  rewrite andb_true_r. reflexivity.
Qed.

Lemma linea_de_solicitud_ok e p :
  codificable e = true -> codificable p = true ->
  codificable (linea_de_solicitud e p) = true.
Proof.
  intros He Hp. rewrite linea_de_solicitud_codificable, He, Hp. reflexivity.
Qed.

Lemma mensaje_sin_informacion_codificable e :
  codificable e = true -> codificable (mensaje_sin_informacion e) = true.
Proof. intros H. unfold mensaje_sin_informacion. codif. Qed.

Lemma bind_eventos {A B} (m : M A) (f : A -> M B) (a : A) :
  resultado m = inr a ->
  bind m f = (eventos m ++ eventos (f a), resultado (f a)).
Proof.
  destruct m as [l r]. simpl. intros ->. simpl.
  destruct (f a). reflexivity.
Qed.

Lemma bind_raise {A B} (m : M A) (f : A -> M B) (e : Exn) :
  resultado m = inl e -> bind m f = (eventos m, inl e).
Proof. destruct m as [l r]. simpl. intros ->. reflexivity. Qed.

Lemma try_except_raise {A} (m : M A) (h : Exn -> M A) (e : Exn) :
  resultado m = inl e ->
  try_except m h = (eventos m ++ eventos (h e), resultado (h e)).
Proof.
  destruct m as [l r]. simpl. intros ->. destruct (h e). reflexivity.
Qed.

Lemma try_except_ret {A} (m : M A) (h : Exn -> M A) (a : A) :
  resultado m = inr a -> try_except m h = m.
Proof. destruct m as [l r]. simpl. intros ->. reflexivity. Qed.

(** The name used at line 108 is bound nowhere. *)
Lemma prompt_sintesis_sin_definir :
  existsb (String.eqb "prompt_sintesis") globales_main = false.
Proof. reflexivity. Qed.

Section PropiedadesServicio.

Variable unicode_lower : str -> str.
Variable format_exc : Exn -> Imprimible.
Variable Embedding : Type.
Variable embed_query : GoogleGenerativeAIEmbeddings -> str -> Exn + Embedding.
Variable distancia : Embedding -> str -> N.
Variable llm_invoke : ChatOpenAI -> Valor -> Exn + str.

Local Abbreviation buscar := (similarity_search Embedding embed_query distancia).
Local Abbreviation procesar' :=
  (procesar Embedding embed_query distancia llm_invoke).
Local Abbreviation extraer :=
  (extraer_contexto unicode_lower format_exc Embedding embed_query distancia
     llm_invoke).
Local Abbreviation post :=
  (post_extraer_contexto unicode_lower format_exc Embedding embed_query
     distancia llm_invoke).

Lemma buscar_eventos d q k f :
  eventos (buscar d q k f) = [BuscaSimilitud q k f].
Proof. reflexivity. Qed.

(** The three ways through the [try] block. *)
Lemma procesar_sin_fragmentos d l p e :
  codificable e = true ->
  resultado (buscar d p 10 e) = inr [] ->
  procesar' d l p e =
  ([ Imprime (py ">>> Buscando contexto en ChromaDB SÓLO con la etiqueta: 'fuente': '"
              ++ e ++ py "'...");
     BuscaSimilitud p 10 e;
     Imprime (py ">>> No se encontró contexto relevante PARA ESA ENTIDAD.") ],
   inr [(py "contexto", mensaje_sin_informacion e)]).
Proof.
  intros He H. unfold procesar. rewrite bind_print by codif.
  rewrite (bind_eventos _ _ _ H).
  rewrite bind_print by codif. reflexivity.
Qed.

Lemma procesar_busqueda_falla d l p e x :
  codificable e = true ->
  resultado (buscar d p 10 e) = inl x ->
  procesar' d l p e =
  ([ Imprime (py ">>> Buscando contexto en ChromaDB SÓLO con la etiqueta: 'fuente': '"
              ++ e ++ py "'...");
     BuscaSimilitud p 10 e ],
   inl x).
Proof.
  intros He H. unfold procesar. rewrite bind_print by codif.
  rewrite (bind_raise _ _ _ H). reflexivity.
Qed.

Lemma procesar_con_fragmentos d l p e doc docs :
  codificable e = true ->
  resultado (buscar d p 10 e) = inr (doc :: docs) ->
  procesar' d l p e =
  ([ Imprime (py ">>> Buscando contexto en ChromaDB SÓLO con la etiqueta: 'fuente': '"
              ++ e ++ py "'...");
     BuscaSimilitud p 10 e;
     Imprime (py ">>> Sintetizando la respuesta con GPT-4o (Contexto: "
              ++ e ++ py ")...") ],
   inl (NameError (py "prompt_sintesis"))).
Proof.
  intros He H. unfold procesar. rewrite bind_print by codif.
  rewrite (bind_eventos _ _ _ H).
  rewrite bind_print by codif. reflexivity.
Qed.

(** With a label that cannot be printed, the [try] block raises at once. *)
Lemma procesar_no_codificable d l p e :
  codificable e = false ->
  exists x, procesar' d l p e = ([], inl x).
Proof.
  intros He. unfold procesar. eexists. apply bind_print_falla.
  rewrite !codificable_app, He, andb_false_r. reflexivity.
Qed.

(** The [try] block never reaches the chat model. *)
Lemma procesar_no_invoca d l p e v :
  InvocaLLM v ∉ eventos (procesar' d l p e).
Proof.
  destruct (codificable e) eqn:He.
  - destruct (resultado (buscar d p 10 e)) as [x | [| doc docs]] eqn:H.
    + rewrite (procesar_busqueda_falla _ _ _ _ _ He H). simpl.
      no_en_lista.
    + rewrite (procesar_sin_fragmentos _ _ _ _ He H). simpl.
      no_en_lista.
    + rewrite (procesar_con_fragmentos _ _ _ _ _ _ He H). simpl.
      no_en_lista.
  - destruct (procesar_no_codificable d l p e He) as [x ->]. simpl.
    no_en_lista.
Qed.

Lemma manejar_excepcion_eq e :
  manejar_excepcion format_exc e =
  ([ Imprime (py "!!! ERROR DURANTE EL PROCESAMIENTO DE LA SOLICITUD: "
              ++ format_exc e) ],
   inl (HTTPException 500
          (py "Error interno del servidor: " ++ exn_str e ++ nl
           ++ format_exc e))).
Proof. unfold manejar_excepcion. rewrite bind_print by codif. reflexivity. Qed.

(** The handler starts with the request line: when standard output cannot
    encode it, the exception leaves the handler before any guard. *)
Lemma extraer_linea_no_codificable g s :
  codificable (linea_de_solicitud (strip (lower unicode_lower (entidad s)))
                 (pregunta s)) = false ->
  extraer g s =
  ([], inl (UnicodeEncodeError
              (linea_de_solicitud (strip (lower unicode_lower (entidad s)))
                 (pregunta s))
              (inicio_sustitutos
                 (linea_de_solicitud (strip (lower unicode_lower (entidad s)))
                    (pregunta s)))
              (fin_sustitutos
                 (linea_de_solicitud (strip (lower unicode_lower (entidad s)))
                    (pregunta s))))).
Proof.
  intros H. unfold extraer_contexto.
  exact (bind_print_falla _ _ H).
Qed.

(** The handler with both components loaded and an entity that is not
    empty: the first print, then the guarded [try] block. *)
Lemma extraer_cargado g d l s :
  db g = Some d -> llm g = Some l ->
  strip (lower unicode_lower (entidad s)) <> [] ->
  extraer g s =
  (print (linea_de_solicitud (strip (lower unicode_lower (entidad s)))
            (pregunta s)) ;;;
   try_except (procesar' d l (pregunta s)
                 (strip (lower unicode_lower (entidad s))))
              (manejar_excepcion format_exc)).
Proof.
  intros Hd Hl Hne. unfold extraer_contexto. rewrite Hd, Hl.
  destruct (strip (lower unicode_lower (entidad s))); [done | reflexivity].
Qed.

Lemma extraer_vacia g d l s :
  db g = Some d -> llm g = Some l ->
  strip (lower unicode_lower (entidad s)) = [] ->
  codificable (pregunta s) = true ->
  extraer g s =
  ([ Imprime (linea_de_solicitud [] (pregunta s)) ],
   inl (HTTPException 400
          (py "Error: El campo 'entidad' no puede estar vacío."))).
Proof.
  intros Hd Hl He Hp. unfold extraer_contexto. rewrite Hd, Hl, He.
  rewrite bind_print by (apply linea_de_solicitud_ok; [reflexivity | exact Hp]).
  reflexivity.
Qed.

Lemma extraer_sin_componentes g s :
  db g = None \/ llm g = None ->
  codificable (strip (lower unicode_lower (entidad s))) = true ->
  codificable (pregunta s) = true ->
  resultado (extraer g s) =
  inl (HTTPException 503
         (py "Servicio no disponible: Los componentes de IA no están cargados.")).
Proof.
  intros H He Hp. unfold extraer_contexto.
  rewrite bind_print by (apply linea_de_solicitud_ok; assumption). simpl.
  destruct H as [-> | ->]; [reflexivity |].
  destruct (db g); reflexivity.
Qed.

(** A start that returns has loaded both components, with the keys of the
    environment and the chunks of the store directory. *)
Lemma startup_carga env w g :
  en_servicio format_exc env w g ->
  exists kg ko chunks,
    env !! py "GOOGLE_API_KEY" = Some kg /\ kg <> [] /\
    env !! py "OPENAI_API_KEY" = Some ko /\ ko <> [] /\
    directorios w !! DIRECTORIO_DB = Some chunks /\
    g = {| db := Some {| persist_directory := DIRECTORIO_DB;
                         embedding_function :=
                           {| emb_model := py "models/text-embedding-004";
                              google_api_key := kg |};
                         coleccion := chunks |};
           llm := Some {| model := py "gpt-4o"; openai_api_key := ko |} |}.
Proof.
  unfold en_servicio, startup_event, getenv_truthy.
  rewrite bind_print by codif.
  destruct (env !! py "GOOGLE_API_KEY") as [kg|] eqn:Hg;
    [| cbn; rewrite bind_print by codif; discriminate].
  destruct (env !! py "OPENAI_API_KEY") as [ko|] eqn:Ho;
    [| rewrite andb_false_r; cbn; rewrite bind_print by codif; discriminate].
  destruct kg as [| c1 kg'];
    [cbn; rewrite bind_print by codif; discriminate |].
  destruct ko as [| c2 ko'];
    [cbn; rewrite bind_print by codif; discriminate |].
  cbn [truthy andb negb].
  rewrite !bind_print by codif.
  destruct (directorios w !! DIRECTORIO_DB) as [chunks|] eqn:Hdir;
    [| cbn; rewrite bind_print by codif; discriminate].
  rewrite !bind_print by codif.
  cbn. intros [= <-].
  exists (c1 :: kg'), (c2 :: ko'), chunks. repeat split; done.
Qed.

Lemma startup_componentes env w g :
  en_servicio format_exc env w g ->
  exists d l, db g = Some d /\ llm g = Some l /\
              directorios w !! DIRECTORIO_DB = Some (coleccion d).
Proof.
  intros H. destruct (startup_carga _ _ _ H)
    as (kg & ko & chunks & _ & _ & _ & _ & Hdir & ->).
  eexists _, _. repeat split. exact Hdir.
Qed.

(** The start without one of the keys, and the start without the store
    directory: the critical-error line, and the exception again. *)
Lemma startup_sin_claves env w :
  getenv_truthy env (py "GOOGLE_API_KEY")
  && getenv_truthy env (py "OPENAI_API_KEY") = false ->
  startup_event format_exc env w =
  ([ Imprime (py ">>> Evento de inicio: Iniciando carga de componentes...");
     Imprime (py "!!! ERROR CRÍTICO DURANTE EL INICIO: "
              ++ format_exc
                   (ValueError
                      (py "!!! ERROR FATAL: Faltan claves (GOOGLE o OPENAI) en las variables de entorno."))) ],
   inl (ValueError
          (py "!!! ERROR FATAL: Faltan claves (GOOGLE o OPENAI) en las variables de entorno."))).
Proof.
  intros H. unfold startup_event. rewrite bind_print by codif. rewrite H.
  cbn [negb raise eventos resultado fst snd try_except].
  rewrite bind_print by codif. reflexivity.
Qed.

Lemma startup_sin_directorio env w :
  getenv_truthy env (py "GOOGLE_API_KEY") = true ->
  getenv_truthy env (py "OPENAI_API_KEY") = true ->
  directorios w !! DIRECTORIO_DB = None ->
  startup_event format_exc env w =
  ([ Imprime (py ">>> Evento de inicio: Iniciando carga de componentes...");
     Imprime (py ">>> Claves de API validadas.");
     Imprime (py ">>> Cargando Embeddings de Google...");
     Imprime (py ">>> Cargando Base de Datos Chroma desde '" ++ DIRECTORIO_DB
              ++ py "'...");
     ConsultaRuta DIRECTORIO_DB false;
     Imprime (py "!!! ERROR CRÍTICO DURANTE EL INICIO: "
              ++ format_exc
                   (FileNotFoundError
                      (py "!!! ERROR FATAL: No se encuentra el directorio '"
                       ++ DIRECTORIO_DB
                       ++ py "'. ¿Olvidaste subir la base de datos?"))) ],
   inl (FileNotFoundError
          (py "!!! ERROR FATAL: No se encuentra el directorio '" ++ DIRECTORIO_DB
           ++ py "'. ¿Olvidaste subir la base de datos?"))).
Proof.
  intros Hg Ho Hdir. unfold startup_event.
  rewrite bind_print by codif. rewrite Hg, Ho. cbn [andb negb].
  rewrite !bind_print by codif. rewrite Hdir.
  cbn [bind raise eventos resultado fst snd try_except app].
  rewrite bind_print by codif. reflexivity.
Qed.

(** With nearby chunks found, the handler answers 500 for the unbound
    name, and the chat model is never called. *)
Lemma con_fragmentos_responde_500 g d l s doc docs :
  db g = Some d -> llm g = Some l ->
  strip (lower unicode_lower (entidad s)) <> [] ->
  codificable (strip (lower unicode_lower (entidad s))) = true ->
  codificable (pregunta s) = true ->
  resultado (buscar d (pregunta s) 10 (strip (lower unicode_lower (entidad s))))
  = inr (doc :: docs) ->
  snd (post g s) =
  {| status := 500;
     body := Json [(py "detail",
                    py "Error interno del servidor: "
                    ++ py "name 'prompt_sintesis' is not defined" ++ nl
                    ++ format_exc (NameError (py "prompt_sintesis")))] |}
  /\ forall v, InvocaLLM v ∉ fst (post g s).
Proof.
  intros Hd Hl Hne He Hq Hb. unfold post_extraer_contexto.
  rewrite (extraer_cargado _ _ _ _ Hd Hl Hne).
  rewrite bind_print by (apply linea_de_solicitud_ok; assumption).
  pose proof (procesar_con_fragmentos _ l _ _ _ _ He Hb) as Hp.
  rewrite (try_except_raise _ _ (NameError (py "prompt_sintesis")))
    by (rewrite Hp; reflexivity).
  rewrite Hp, manejar_excepcion_eq. split.
  - cbn [resultado snd respuesta_fastapi].
    replace (codificable _) with true; [reflexivity |].
    symmetry. codif.
  - intros v. cbn. no_en_lista.
Qed.

End PropiedadesServicio.

(* ===================================================================== *)
(** ** Properties of [strip] and [lower] *)
(* ===================================================================== *)

Lemma lstrip_solo_espacios s : solo_espacios s -> lstrip s = [].
Proof.
  induction 1 as [| c s Hc _ IH]; [reflexivity |].
  simpl. rewrite Hc. exact IH.
Qed.

Lemma lstrip_nil_inv s : lstrip s = [] -> solo_espacios s.
Proof.
  induction s as [| c s IH]; intros H; [constructor |].
  simpl in H. destruct (isspace c) eqn:Hc; [| discriminate].
  constructor; [exact Hc | exact (IH H)].
Qed.

Lemma lstrip_app_espacios l s : solo_espacios l -> lstrip (l ++ s) = lstrip s.
Proof.
  induction 1 as [| c l Hc _ IH]; [reflexivity |].
  simpl. rewrite Hc. exact IH.
Qed.

Lemma lstrip_app_no_vacio m r : lstrip m <> [] -> lstrip (m ++ r) = lstrip m ++ r.
Proof.
  induction m as [| c m IH]; intros H; [done |].
  simpl in *. destruct (isspace c); [auto | reflexivity].
Qed.

Lemma solo_espacios_rev s : solo_espacios s -> solo_espacios (rev s).
Proof. unfold solo_espacios. apply List.Forall_rev. Qed.

Lemma rstrip_app_espacios s r : solo_espacios r -> rstrip (s ++ r) = rstrip s.
Proof.
  intros H. unfold rstrip. rewrite rev_app_distr.
  rewrite lstrip_app_espacios by (apply solo_espacios_rev; exact H).
  reflexivity.
Qed.

(** White space around a string does not survive [strip]. *)
Lemma strip_rodeado l m r :
  solo_espacios l -> solo_espacios r -> strip (l ++ m ++ r) = strip m.
Proof.
  intros Hl Hr. unfold strip. rewrite lstrip_app_espacios by exact Hl.
  destruct (lstrip m) as [| c m'] eqn:Hm.
  - apply lstrip_nil_inv in Hm.
    rewrite lstrip_app_espacios by exact Hm.
    rewrite lstrip_solo_espacios by exact Hr. reflexivity.
  - rewrite lstrip_app_no_vacio by (rewrite Hm; discriminate).
    rewrite Hm. apply rstrip_app_espacios. exact Hr.
Qed.




Lemma lower_ascii ul s : isascii s = true -> lower ul s = map ascii_lower s.
Proof. unfold lower. intros ->. reflexivity. Qed.



(* ===================================================================== *)
(** ** Properties of the indexer *)
(* ===================================================================== *)

Section PropiedadesIndexador.

Variable split_text : str -> list str.

Local Abbreviation procesar_pdf' := (procesar_pdf split_text).
Local Abbreviation fase1' := (fase1 split_text).
Local Abbreviation indexar_con' := (indexar_con split_text).
Local Abbreviation fragmentos_de' := (fragmentos_de split_text).
Local Abbreviation eventos_de' := (eventos_de split_text).
Local Abbreviation tropiezo' := (tropiezo split_text).
Local Abbreviation recorridas' := (recorridas split_text).
Local Abbreviation primer_tropiezo' := (primer_tropiezo split_text).
Local Abbreviation fragmentos_del_mapa' := (fragmentos_del_mapa split_text).

Lemma existe_eq w ruta :
  existe w ruta =
  match pdfs w !! ruta with
  | Some _ => true
  | None => bool_decide (ruta ∈ no_archivos w)
  end.
Proof. unfold existe. destruct (pdfs w !! ruta); reflexivity. Qed.

(** The exception a turn lets through: the one of the loader's constructor
    on a path that is not a regular file, or the one of the [print] of a
    loading error that cannot be encoded. *)
Lemma tropiezo_eq w et arch :
  tropiezo' w (et, arch) =
  match pdfs w !! strip arch with
  | Some (inl e) =>
    if codificable (texto_aviso_fallo (strip arch) e) then None
    else Some (UnicodeEncodeError (texto_aviso_fallo (strip arch) e)
                 (inicio_sustitutos (texto_aviso_fallo (strip arch) e))
                 (fin_sustitutos (texto_aviso_fallo (strip arch) e)))
  | Some (inr _) => None
  | None =>
    if bool_decide (strip arch ∈ no_archivos w) then
      Some (ValueError (py "File path " ++ strip arch
                        ++ py " is not a valid file or url"))
    else None
  end.
Proof.
  unfold tropiezo, procesar_pdf, emite, interrumpe.
  cbn. rewrite !existe_eq.
  destruct (pdfs w !! strip arch) as [[e | documentos] |]; cbn.
  - destruct (codificable _); reflexivity.
  - reflexivity.
  - destruct (bool_decide _); reflexivity.
Qed.

(** One turn of the loop leaves the disk alone, appends what it prints and
    calls, appends the tagged chunks of its entry, and records the
    exception it lets through, if any. *)
Lemma procesar_pdf_eq s entrada :
  procesar_pdf' s entrada =
  {| mundo := mundo s;
     salida := salida s ++ eventos_de' (mundo s) entrada;
     todos_los_fragmentos :=
       todos_los_fragmentos s ++ fragmentos_de' (mundo s) entrada;
     excepcion :=
       match tropiezo' (mundo s) entrada with
       | Some e => Some e
       | None => excepcion s
       end |}.
Proof.
  destruct s as [w sal td ex], entrada as [et arch].
  unfold procesar_pdf, eventos_de, fragmentos_de, tropiezo, emite, interrumpe.
  cbn. rewrite !existe_eq.
  destruct (pdfs w !! strip arch) as [[e | documentos] |]; cbn.
  - destruct (codificable _); cbn;
      rewrite <- ?app_assoc, ?app_nil_r; reflexivity.
  - rewrite <- ?app_assoc, ?app_nil_r. reflexivity.
  - destruct (bool_decide _); cbn;
      rewrite <- ?app_assoc, ?app_nil_r; reflexivity.
Qed.

(** The loop visits the entries of the table in order, up to the first
    that lets an exception through. *)
Lemma fase1_eq mapa s :
  excepcion s = None ->
  fase1' mapa s =
  {| mundo := mundo s;
     salida := salida s
               ++ flat_map (eventos_de' (mundo s)) (recorridas' (mundo s) mapa);
     todos_los_fragmentos :=
       todos_los_fragmentos s
       ++ flat_map (fragmentos_de' (mundo s)) (recorridas' (mundo s) mapa);
     excepcion := primer_tropiezo' (mundo s) mapa |}.
Proof.
  revert s. induction mapa as [| entrada mapa IH]; intros s Hs.
  - cbn. rewrite !app_nil_r. destruct s. cbn in Hs. rewrite Hs. reflexivity.
  - cbn [fase1 recorridas primer_tropiezo]. rewrite procesar_pdf_eq.
    cbn [excepcion]. rewrite Hs.
    destruct (tropiezo' (mundo s) entrada) as [x |] eqn:Ht.
    + cbn [flat_map]. rewrite !app_nil_r. reflexivity.
    + rewrite IH by reflexivity.
      cbn [mundo salida todos_los_fragmentos flat_map].
      rewrite <- !app_assoc. reflexivity.
Qed.

Lemma recorridas_sin_tropiezo w mapa :
  primer_tropiezo' w mapa = None -> recorridas' w mapa = mapa.
Proof.
  induction mapa as [| entrada mapa IH]; [reflexivity |].
  cbn. destruct (tropiezo' w entrada); [discriminate |].
  intros H. rewrite (IH H). reflexivity.
Qed.

Lemma primer_tropiezo_None w mapa :
  primer_tropiezo' w mapa = None <->
  forall entrada, entrada ∈ mapa -> tropiezo' w entrada = None.
Proof.
  induction mapa as [| entrada mapa IH]; cbn.
  - split; [intros _ x Hx; apply elem_of_nil in Hx; done | done].
  - destruct (tropiezo' w entrada) as [x |] eqn:Ht.
    + split; [discriminate |]. intros H.
      rewrite <- Ht. apply H, elem_of_cons. by left.
    + rewrite IH. split.
      * intros H x Hx. apply elem_of_cons in Hx as [-> | Hx]; [exact Ht | auto].
      * intros H x Hx. apply H, elem_of_cons. by right.
Qed.

(** On a disk where every path of the table is a regular file or missing,
    and every loading error can be printed, no turn lets an exception
    through. *)
Lemma sin_tropiezos_tropiezo w mapa entrada :
  sin_tropiezos w mapa -> entrada ∈ mapa -> tropiezo' w entrada = None.
Proof.
  intros H Hin. destruct (H entrada Hin) as [H1 H2].
  destruct entrada as [et arch]. rewrite tropiezo_eq. cbn [snd] in *.
  destruct (pdfs w !! strip arch) as [[e | documentos] |].
  - rewrite (H2 e eq_refl). reflexivity.
  - reflexivity.
  - rewrite bool_decide_eq_false_2 by (apply H1; reflexivity). reflexivity.
Qed.

Lemma sin_tropiezos_primer w mapa :
  sin_tropiezos w mapa -> primer_tropiezo' w mapa = None.
Proof.
  intros H. apply primer_tropiezo_None. intros entrada Hin.
  exact (sin_tropiezos_tropiezo _ _ _ H Hin).
Qed.


(** What a turn does depends on the input paths only. *)
Lemma fragmentos_de_pdfs w w' entrada :
  pdfs w = pdfs w' -> fragmentos_de' w entrada = fragmentos_de' w' entrada.
Proof. unfold fragmentos_de. intros ->. reflexivity. Qed.

Lemma eventos_de_pdfs w w' entrada :
  pdfs w = pdfs w' -> no_archivos w = no_archivos w' ->
  eventos_de' w entrada = eventos_de' w' entrada.
Proof.
  destruct entrada as [et arch]. intros H1 H2.
  unfold eventos_de, procesar_pdf, emite, interrumpe. cbn.
  rewrite !existe_eq, H1, H2.
  destruct (pdfs w' !! strip arch) as [[e | documentos] |]; cbn.
  - destruct (codificable _); reflexivity.
  - reflexivity.
  - destruct (bool_decide _); reflexivity.
Qed.

Lemma tropiezo_pdfs w w' entrada :
  pdfs w = pdfs w' -> no_archivos w = no_archivos w' ->
  tropiezo' w entrada = tropiezo' w' entrada.
Proof.
  destruct entrada as [et arch]. rewrite !tropiezo_eq.
  intros -> ->. reflexivity.
Qed.

Lemma primer_tropiezo_pdfs mapa w w' :
  pdfs w = pdfs w' -> no_archivos w = no_archivos w' ->
  primer_tropiezo' w mapa = primer_tropiezo' w' mapa.
Proof.
  intros H1 H2. induction mapa as [| e mapa IH]; [reflexivity |].
  cbn. rewrite IH, (tropiezo_pdfs _ _ _ H1 H2). reflexivity.
Qed.

Lemma recorridas_pdfs mapa w w' :
  pdfs w = pdfs w' -> no_archivos w = no_archivos w' ->
  recorridas' w mapa = recorridas' w' mapa.
Proof.
  intros H1 H2. induction mapa as [| e mapa IH]; [reflexivity |].
  cbn. rewrite IH, (tropiezo_pdfs _ _ _ H1 H2). reflexivity.
Qed.

Lemma fragmentos_del_mapa_pdfs mapa w w' :
  pdfs w = pdfs w' -> fragmentos_del_mapa' mapa w = fragmentos_del_mapa' mapa w'.
Proof.
  intros H. unfold fragmentos_del_mapa. induction mapa as [| e mapa IH];
    [reflexivity |].
  cbn. rewrite IH, (fragmentos_de_pdfs _ _ _ H). reflexivity.
Qed.

(** An entry that cannot be loaded contributes no chunk, and its turn ends
    with the warning. *)
Lemma fragmentos_de_no_cargable w et arch :
  no_cargable w arch -> fragmentos_de' w (et, arch) = [].
Proof.
  unfold fragmentos_de. cbn. intros [-> | [e ->]]; reflexivity.
Qed.

Lemma eventos_de_faltante w et arch :
  pdfs w !! strip arch = None ->
  strip arch ∉ no_archivos w ->
  eventos_de' w (et, arch) =
  [cabecera (et, arch); ConsultaRuta (strip arch) false; aviso_faltante arch].
Proof.
  intros Hp Hn. unfold eventos_de, procesar_pdf.
  cbn. rewrite !existe_eq, Hp.
  rewrite bool_decide_eq_false_2 by exact Hn. reflexivity.
Qed.

Lemma eventos_de_fallo w et arch e :
  pdfs w !! strip arch = Some (inl e) ->
  codificable (texto_aviso_fallo (strip arch) e) = true ->
  eventos_de' w (et, arch) =
  [cabecera (et, arch); ConsultaRuta (strip arch) true;
   Imprime (py "    Cargando archivo: " ++ strip arch ++ py "...");
   CargaPdf (strip arch); aviso_fallo arch e].
Proof.
  intros Hp Hc. unfold eventos_de, procesar_pdf.
  cbn. rewrite !existe_eq, Hp. cbn. rewrite Hc.
  reflexivity.
Qed.

(** The turn on a path that exists and is not a regular file: the header,
    the check, the loading line, and the exception of the constructor. *)
Lemma eventos_de_no_archivo w et arch :
  pdfs w !! strip arch = None ->
  strip arch ∈ no_archivos w ->
  eventos_de' w (et, arch) =
  [cabecera (et, arch); ConsultaRuta (strip arch) true;
   Imprime (py "    Cargando archivo: " ++ strip arch ++ py "...")].
Proof.
  intros Hp Hn. unfold eventos_de, procesar_pdf.
  cbn. rewrite !existe_eq, Hp.
  rewrite bool_decide_eq_true_2 by exact Hn. reflexivity.
Qed.

Lemma eventos_de_cabecera w entrada :
  cabecera entrada ∈ eventos_de' w entrada.
Proof.
  destruct entrada as [et arch]. unfold eventos_de, procesar_pdf.
  cbn. rewrite !existe_eq.
  destruct (pdfs w !! strip arch) as [[e | documentos] |]; cbn.
  - destruct (codificable _); cbn; apply elem_of_cons; left; reflexivity.
  - apply elem_of_cons; left; reflexivity.
  - destruct (bool_decide _); cbn; apply elem_of_cons; left; reflexivity.
Qed.

(** FASE 0 removes the store directory, present or not. *)
Lemma fase0_mundo s :
  mundo (fase0 s) = rmtree DIRECTORIO_PERSISTENTE (mundo s).
Proof.
  unfold fase0, rmtree.
  destruct (directorios (mundo s) !! DIRECTORIO_PERSISTENTE) eqn:H; cbn.
  - reflexivity.
  - rewrite (delete_id _ _ H). destruct (mundo s); reflexivity.
Qed.

Lemma fase0_fragmentos s :
  todos_los_fragmentos (fase0 s) = todos_los_fragmentos s.
Proof.
  unfold fase0.
  destruct (directorios (mundo s) !! DIRECTORIO_PERSISTENTE); reflexivity.
Qed.

Lemma fase0_excepcion s : excepcion (fase0 s) = excepcion s.
Proof.
  unfold fase0.
  destruct (directorios (mundo s) !! DIRECTORIO_PERSISTENTE); reflexivity.
Qed.

(** With a store on disk, FASE 0 calls [rmtree] before anything else than
    the check of the store directory and prints. *)
Lemma fase0_salida_con_almacen s chunks :
  directorios (mundo s) !! DIRECTORIO_PERSISTENTE = Some chunks ->
  salida (fase0 s) =
  (salida s ++ [ConsultaRuta DIRECTORIO_PERSISTENTE true;
                Imprime (py ">>> Borrando la base de datos antigua '"
                         ++ DIRECTORIO_PERSISTENTE ++ py "'...")])
  ++ BorraArbol DIRECTORIO_PERSISTENTE
  :: [Imprime (py ">>> Base de datos antigua borrada.")].
Proof.
  intros H. unfold fase0. rewrite H. cbn. rewrite <- !app_assoc. reflexivity.
Qed.

(** The run without the embeddings key: three prints, and [exit()]. *)
Lemma indexar_sin_clave mapa env w :
  getenv_truthy env (py "GOOGLE_API_KEY") = false ->
  indexar_con' mapa env w =
  (emite [Imprime (py "!!! ERROR: No se encontró la GOOGLE_API_KEY en el archivo .env")]
         (estado_inicial w),
   Salida).
Proof. intros H. unfold indexar_con. rewrite H. reflexivity. Qed.

(** The run with the key, by phases. *)
Lemma indexar_con_clave mapa env w :
  getenv_truthy env (py "GOOGLE_API_KEY") = true ->
  indexar_con' mapa env w =
  let s := fase1' mapa (antes_del_bucle mapa w) in
  match excepcion s with
  | Some e => (s, Excepcion e)
  | None =>
    match todos_los_fragmentos s with
    | [] =>
      (emite [Imprime (py "!!! ERROR FATAL: No se procesó ningún documento.")] s,
       Salida)
    | _ :: _ => (fase3 s, Completado)
    end
  end.
Proof. intros H. unfold indexar_con. rewrite H. reflexivity. Qed.

(** The loop of a run: the disk after FASE 0, the turns of the entries it
    visits, their chunks, and the exception that ends it, if any. *)
Lemma fase1_del_guion mapa w :
  fase1' mapa (antes_del_bucle mapa w) =
  {| mundo := rmtree DIRECTORIO_PERSISTENTE w;
     salida := salida (fase0 (estado_inicial w))
               ++ [Imprime (py ">>> Procesando " ++ str_of_nat (length mapa)
                            ++ py " PDOTs...")]
               ++ flat_map (eventos_de' w) (recorridas' w mapa);
     todos_los_fragmentos := flat_map (fragmentos_de' w) (recorridas' w mapa);
     excepcion := primer_tropiezo' w mapa |}.
Proof.
  rewrite fase1_eq by (unfold antes_del_bucle; cbn; apply fase0_excepcion).
  unfold antes_del_bucle. cbn [mundo salida todos_los_fragmentos emite].
  rewrite fase0_mundo, fase0_fragmentos. cbn [mundo estado_inicial
    todos_los_fragmentos app].
  rewrite (recorridas_pdfs mapa (rmtree DIRECTORIO_PERSISTENTE w) w)
    by reflexivity.
  rewrite (primer_tropiezo_pdfs mapa (rmtree DIRECTORIO_PERSISTENTE w) w)
    by reflexivity.
  rewrite <- app_assoc.
  assert (He : flat_map (eventos_de' (rmtree DIRECTORIO_PERSISTENTE w))
                 (recorridas' w mapa)
               = flat_map (eventos_de' w) (recorridas' w mapa)).
  { apply flat_map_ext. intros entrada. apply eventos_de_pdfs; reflexivity. }
  assert (Hf : flat_map (fragmentos_de' (rmtree DIRECTORIO_PERSISTENTE w))
                 (recorridas' w mapa)
               = flat_map (fragmentos_de' w) (recorridas' w mapa)).
  { apply flat_map_ext. intros entrada. apply fragmentos_de_pdfs. reflexivity. }
  rewrite He, Hf. reflexivity.
Qed.

(** The outcome of a run with the key in which no turn lets an exception
    through: how it ends, the chunks it has collected, and the disk it
    leaves. *)
Lemma indexar_resultado mapa env w :
  getenv_truthy env (py "GOOGLE_API_KEY") = true ->
  primer_tropiezo' w mapa = None ->
  let r := indexar_con' mapa env w in
  let frags := fragmentos_del_mapa' mapa w in
  todos_los_fragmentos (fst r) = frags /\
  snd r = match frags with [] => Salida | _ :: _ => Completado end /\
  mundo (fst r) =
  {| pdfs := pdfs w;
     directorios :=
       match frags with
       | [] => delete DIRECTORIO_PERSISTENTE (directorios w)
       | _ :: _ => <[DIRECTORIO_PERSISTENTE := frags]> (directorios w)
       end;
     no_archivos := no_archivos w |}.
Proof.
  intros H Hp. cbv zeta. rewrite (indexar_con_clave _ _ _ H). cbv zeta.
  rewrite fase1_del_guion, Hp, (recorridas_sin_tropiezo _ _ Hp).
  cbn [excepcion todos_los_fragmentos]. unfold fragmentos_del_mapa.
  destruct (flat_map (fragmentos_de' w) mapa) as [| f fs] eqn:Ht.
  - cbn. repeat split; reflexivity.
  - cbn. repeat split. unfold Chroma_from_documents, rmtree.
    cbn. rewrite lookup_delete_eq. cbn. rewrite insert_delete_eq. reflexivity.
Qed.

(** The outcome of a run with the key in which a turn lets an exception
    through: the script dies of it, after FASE 0 and before FASE 3. *)
Lemma indexar_tropiezo mapa env w e :
  getenv_truthy env (py "GOOGLE_API_KEY") = true ->
  primer_tropiezo' w mapa = Some e ->
  snd (indexar_con' mapa env w) = Excepcion e /\
  mundo (fst (indexar_con' mapa env w)) = rmtree DIRECTORIO_PERSISTENTE w /\
  todos_los_fragmentos (fst (indexar_con' mapa env w))
  = flat_map (fragmentos_de' w) (recorridas' w mapa).
Proof.
  intros H Hp. rewrite (indexar_con_clave _ _ _ H). cbv zeta.
  rewrite fase1_del_guion, Hp. cbn. repeat split; reflexivity.
Qed.

(** What a run with the key prints and calls: FASE 0, the count, the turns
    of the loop in the order of the table, then the ending. *)
Lemma indexar_salida mapa env w :
  getenv_truthy env (py "GOOGLE_API_KEY") = true ->
  exists cola,
    salida (fst (indexar_con' mapa env w)) =
    salida (fase0 (estado_inicial w))
    ++ [Imprime (py ">>> Procesando " ++ str_of_nat (length mapa)
                 ++ py " PDOTs...")]
    ++ flat_map (eventos_de' w) (recorridas' w mapa) ++ cola
    /\ (primer_tropiezo' w mapa = None ->
        fragmentos_del_mapa' mapa w = [] ->
        cola = [Imprime (py "!!! ERROR FATAL: No se procesó ningún documento.")])
    /\ (forall ruta, BorraArbol ruta ∉ cola)
    /\ (forall e, primer_tropiezo' w mapa = Some e -> cola = []).
Proof.
  intros H. rewrite (indexar_con_clave _ _ _ H). cbv zeta.
  rewrite fase1_del_guion. cbn [excepcion todos_los_fragmentos].
  destruct (primer_tropiezo' w mapa) as [e |] eqn:Hp.
  - exists []. cbn [fst salida]. rewrite !app_nil_r.
    split; [reflexivity |]. split; [discriminate |].
    split; [intros ruta; apply not_elem_of_nil | reflexivity].
  - rewrite (recorridas_sin_tropiezo _ _ Hp).
    destruct (flat_map (fragmentos_de' w) mapa) as [| f fs] eqn:Ht.
    + eexists. split; [| split; [| split]].
      * cbn. rewrite <- !app_assoc. reflexivity.
      * reflexivity.
      * intros ruta. no_en_lista.
      * discriminate.
    + eexists. split; [| split; [| split]].
      * unfold fase3. cbn. rewrite <- !app_assoc. reflexivity.
      * intros _. unfold fragmentos_del_mapa. rewrite Ht. discriminate.
      * intros ruta. rewrite ?elem_of_app. no_en_lista.
      * discriminate.
Qed.

(** A run with the key that no uncaught exception ends has met none in
    the loop. *)
Lemma sin_excepcion_primer mapa env w :
  getenv_truthy env (py "GOOGLE_API_KEY") = true ->
  sin_excepcion (snd (indexar_con' mapa env w)) ->
  primer_tropiezo' w mapa = None.
Proof.
  intros Hk Hs. destruct (primer_tropiezo' w mapa) as [e |] eqn:Hp;
    [| reflexivity].
  destruct (indexar_tropiezo mapa env w e Hk Hp) as (He & _).
  rewrite He in Hs. destruct Hs.
Qed.

(** A store is on disk after a run with the key only when the run has
    reached its last line; it then holds the chunks of the table. *)
Lemma almacen_tras_indexar mapa env w chunks :
  getenv_truthy env (py "GOOGLE_API_KEY") = true ->
  directorios (mundo (fst (indexar_con' mapa env w))) !! DIRECTORIO_PERSISTENTE
  = Some chunks ->
  primer_tropiezo' w mapa = None /\ chunks = fragmentos_del_mapa' mapa w.
Proof.
  intros Hk Hdir. destruct (primer_tropiezo' w mapa) as [e |] eqn:Hp.
  - destruct (indexar_tropiezo mapa env w e Hk Hp) as (_ & Hm & _).
    rewrite Hm in Hdir. cbn [directorios rmtree] in Hdir.
    rewrite lookup_delete_eq in Hdir. discriminate.
  - split; [reflexivity |].
    destruct (indexar_resultado mapa env w Hk Hp) as (_ & _ & Hm).
    rewrite Hm in Hdir. cbn [directorios] in Hdir.
    destruct (fragmentos_del_mapa' mapa w) as [| f fs].
    + rewrite lookup_delete_eq in Hdir. discriminate.
    + rewrite lookup_insert_eq in Hdir. congruence.
Qed.

Lemma primer_tropiezo_app w pre mapa :
  primer_tropiezo' w pre = None ->
  primer_tropiezo' w (pre ++ mapa) = primer_tropiezo' w mapa.
Proof.
  induction pre as [| entrada pre IH]; [reflexivity |].
  cbn. destruct (tropiezo' w entrada); [discriminate | exact IH].
Qed.

Lemma recorridas_app w pre mapa :
  primer_tropiezo' w pre = None ->
  recorridas' w (pre ++ mapa) = pre ++ recorridas' w mapa.
Proof.
  induction pre as [| entrada pre IH]; [reflexivity |].
  cbn. destruct (tropiezo' w entrada); [discriminate |].
  intros H. rewrite (IH H). reflexivity.
Qed.

(** The two assignments leave the label under ["fuente"]. *)
Lemma etiquetar_fuente et arch frag :
  metadata (etiquetar et arch frag) !! py "fuente" = Some (MStr et).
Proof.
  unfold etiquetar. cbn.
  rewrite lookup_insert_ne by (vm_compute; discriminate).
  apply lookup_insert_eq.
Qed.

Lemma fragmentos_de_etiquetados w entrada :
  Forall (fun d => metadata d !! py "fuente" = Some (MStr (fst entrada)))
         (fragmentos_de' w entrada).
Proof.
  unfold fragmentos_de.
  destruct (pdfs w !! strip (snd entrada)) as [[e | documentos] |];
    [constructor | | constructor].
  apply Forall_map, Forall_forall. intros frag _. apply etiquetar_fuente.
Qed.

Lemma fragmentos_del_mapa_etiquetados mapa w :
  Forall (fun d => exists et, et ∈ map fst mapa /\
                              metadata d !! py "fuente" = Some (MStr et))
         (fragmentos_del_mapa' mapa w).
Proof.
  unfold fragmentos_del_mapa. induction mapa as [| entrada mapa IH];
    [constructor |].
  cbn [flat_map map]. apply Forall_app. split.
  - eapply Forall_impl; [apply fragmentos_de_etiquetados |].
    intros d Hd. exists (fst entrada). split; [apply elem_of_cons; by left | done].
  - eapply Forall_impl; [exact IH |].
    intros d (et & Het & Hd). exists et. split; [apply elem_of_cons; by right | done].
Qed.

(** Whatever the store held, after a run it holds labelled chunks only. *)
Lemma indexar_almacen_etiquetado env w :
  almacen_etiquetado w ->
  almacen_etiquetado (mundo (fst (indexar_pdot split_text env w))).
Proof.
  intros Hw. unfold indexar_pdot.
  destruct (getenv_truthy env (py "GOOGLE_API_KEY")) eqn:Hk.
  - destruct (primer_tropiezo' w MAPA_DE_PDOTS) as [e |] eqn:Hp.
    + destruct (indexar_tropiezo MAPA_DE_PDOTS env w e Hk Hp) as (_ & -> & _).
      intros chunks. cbn [directorios rmtree].
      rewrite lookup_delete_eq. discriminate.
    + destruct (indexar_resultado MAPA_DE_PDOTS env w Hk Hp) as (_ & _ & ->).
      intros chunks. cbn [directorios].
      pose proof (fragmentos_del_mapa_etiquetados MAPA_DE_PDOTS w) as Hf.
      destruct (fragmentos_del_mapa' MAPA_DE_PDOTS w) as [| f fs].
      * rewrite lookup_delete_eq. discriminate.
      * rewrite lookup_insert_eq. intros [= <-]. exact Hf.
  - rewrite (indexar_sin_clave _ _ _ Hk). exact Hw.
Qed.

Lemma construido_etiquetado w :
  construido split_text w -> almacen_etiquetado w.
Proof.
  induction 1 as [w Hw | env w _ IH | w archivos otras _ IH].
  - intros chunks. rewrite Hw. discriminate.
  - apply indexar_almacen_etiquetado, IH.
  - exact IH.
Qed.

End PropiedadesIndexador.

(* ===================================================================== *)
(** ** The claims about the query service *)
(* ===================================================================== *)

Section ReclamosServicio.

Variable unicode_lower : str -> str.
Variable format_exc : Exn -> Imprimible.
Variable Embedding : Type.
Variable embed_query : GoogleGenerativeAIEmbeddings -> str -> Exn + Embedding.
Variable distancia : Embedding -> str -> N.
Variable llm_invoke : ChatOpenAI -> Valor -> Exn + str.

Local Abbreviation buscar := (similarity_search Embedding embed_query distancia).
Local Abbreviation procesar' :=
  (procesar Embedding embed_query distancia llm_invoke).
Local Abbreviation post :=
  (post_extraer_contexto unicode_lower format_exc Embedding embed_query
     distancia llm_invoke).

(** The whole run of the handler when the filtered search finds nothing. *)
Lemma sin_fragmentos_post g d l s :
  db g = Some d -> llm g = Some l ->
  strip (lower unicode_lower (entidad s)) <> [] ->
  codificable (strip (lower unicode_lower (entidad s))) = true ->
  codificable (pregunta s) = true ->
  resultado (buscar d (pregunta s) 10 (strip (lower unicode_lower (entidad s))))
  = inr [] ->
  post g s =
  ([ Imprime (linea_de_solicitud (strip (lower unicode_lower (entidad s)))
                (pregunta s));
     Imprime (py ">>> Buscando contexto en ChromaDB SÓLO con la etiqueta: 'fuente': '"
              ++ strip (lower unicode_lower (entidad s)) ++ py "'...");
     BuscaSimilitud (pregunta s) 10 (strip (lower unicode_lower (entidad s)));
     Imprime (py ">>> No se encontró contexto relevante PARA ESA ENTIDAD.") ],
   {| status := 200;
      body := Json [(py "contexto",
                     mensaje_sin_informacion
                       (strip (lower unicode_lower (entidad s))))] |}).
Proof.
  intros Hd Hl Hne He Hq Hb. unfold post_extraer_contexto.
  rewrite (extraer_cargado _ _ _ _ _ _ _ _ _ _ Hd Hl Hne).
  rewrite bind_print by (apply linea_de_solicitud_ok; assumption).
  pose proof (procesar_sin_fragmentos _ _ _ llm_invoke _ l _ _ He Hb) as Hp.
  rewrite (try_except_ret _ _ [(py "contexto",
                                mensaje_sin_informacion
                                  (strip (lower unicode_lower (entidad s))))])
    by (rewrite Hp; reflexivity).
  rewrite Hp. cbn [eventos resultado fst snd respuesta_fastapi codificable_dict
                   forallb].
  replace (codificable (py "contexto")) with true by (vm_compute; reflexivity).
  rewrite (mensaje_sin_informacion_codificable _ He). reflexivity.
Qed.

(** Once the service is serving (its start has returned), a request whose
    entity is empty after lowercasing and stripping, and whose question can
    be printed, is answered with 400. *)
Lemma en_servicio_entidad_vacia_400 env w g s :
  en_servicio format_exc env w g ->
  strip (lower unicode_lower (entidad s)) = [] ->
  codificable (pregunta s) = true ->
  snd (post g s) =
  {| status := 400;
     body := Json [(py "detail",
                    py "Error: El campo 'entidad' no puede estar vacío.")] |}.
Proof.
  intros Hs He Hq.
  destruct (startup_componentes _ _ _ _ Hs) as (d & l & Hd & Hl & _).
  unfold post_extraer_contexto.
  rewrite (extraer_vacia _ _ _ _ _ _ _ _ _ _ Hd Hl He Hq). reflexivity.
Qed.

(** C2, as amended.  A request whose [entidad] is empty after lowercasing
    and stripping, and whose question standard output can encode, is
    answered with HTTP status 400 when both components are loaded, and with
    503 when one of them is not. *)
Theorem C2_entidad_vacia_400_o_503 g s :
  strip (lower unicode_lower (entidad s)) = [] ->
  codificable (pregunta s) = true ->
  snd (post g s) =
  match db g, llm g with
  | Some _, Some _ =>
    {| status := 400;
       body := Json [(py "detail",
                      py "Error: El campo 'entidad' no puede estar vacío.")] |}
  | _, _ =>
    {| status := 503;
       body := Json [(py "detail",
                      py "Servicio no disponible: Los componentes de IA no están cargados.")] |}
  end.
Proof.
  intros He Hq. unfold post_extraer_contexto.
  assert (Hn : codificable (strip (lower unicode_lower (entidad s))) = true)
    by (rewrite He; reflexivity).
  destruct (db g) as [d |] eqn:Hd; [destruct (llm g) as [l |] eqn:Hl |].
  - rewrite (extraer_vacia _ _ _ _ _ _ _ _ _ _ Hd Hl He Hq). reflexivity.
  - rewrite extraer_sin_componentes by (assumption || (right; exact Hl)).
    reflexivity.
  - rewrite extraer_sin_componentes by (assumption || (left; exact Hd)).
    reflexivity.
Qed.

(** C3, as amended.  For a request with a non-empty entity, whose
    normalised entity and question standard output can encode, and whose
    filtered similarity search returns no chunk, the response is 200 with
    the fixed no-information message (around the entity) under [contexto],
    and the chat model is not invoked. *)
Theorem C3_sin_fragmentos_mensaje_fijo g d l s :
  db g = Some d -> llm g = Some l ->
  strip (lower unicode_lower (entidad s)) <> [] ->
  codificable (strip (lower unicode_lower (entidad s))) = true ->
  codificable (pregunta s) = true ->
  resultado (buscar d (pregunta s) 10 (strip (lower unicode_lower (entidad s))))
  = inr [] ->
  snd (post g s) =
  {| status := 200;
     body := Json [(py "contexto",
                    py "No se encontró información específica para la entidad '"
                    ++ strip (lower unicode_lower (entidad s))
                    ++ py "' sobre la consulta realizada.")] |}
  /\ forall v, InvocaLLM v ∉ fst (post g s).
Proof.
  intros Hd Hl Hne He Hq Hb.
  rewrite (sin_fragmentos_post _ _ _ _ Hd Hl Hne He Hq Hb).
  split; [reflexivity |]. intros v. cbn [fst]. no_en_lista.
Qed.

(** C8, as amended.  When the [try] block of the handler (lines 76-111)
    raises an exception whose message can be encoded, for a request whose
    normalised entity and question standard output can encode, the
    response is HTTP 500 and its body carries the text of the exception
    followed by its traceback. *)
Theorem C8_excepcion_500_con_traza g d l s e :
  db g = Some d -> llm g = Some l ->
  strip (lower unicode_lower (entidad s)) <> [] ->
  codificable (strip (lower unicode_lower (entidad s))) = true ->
  codificable (pregunta s) = true ->
  resultado (procesar' d l (pregunta s)
               (strip (lower unicode_lower (entidad s)))) = inl e ->
  codificable (exn_str e) = true ->
  snd (post g s) =
  {| status := 500;
     body := Json [(py "detail",
                    py "Error interno del servidor: " ++ exn_str e ++ nl
                    ++ format_exc e)] |}.
Proof.
  intros Hd Hl Hne Hn Hq He Hm. unfold post_extraer_contexto.
  rewrite (extraer_cargado _ _ _ _ _ _ _ _ _ _ Hd Hl Hne).
  rewrite bind_print by (apply linea_de_solicitud_ok; assumption).
  rewrite (try_except_raise _ _ _ He), manejar_excepcion_eq.
  cbn [resultado snd respuesta_fastapi].
  replace (codificable _) with true; [reflexivity |].
  symmetry. codif.
Qed.


(** The filter on a label that no chunk carries keeps nothing. *)
Lemma filtro_etiqueta_ajena (fuente : str) (docs : list Document) :
  Forall (fun d => exists et, et ∈ etiquetas /\
                              metadata d !! py "fuente" = Some (MStr et)) docs ->
  fuente ∉ etiquetas ->
  filter (coincide fuente) docs = [].
Proof.
  intros Hdocs Hnot.
  induction Hdocs as [| doc docs (et & Hin & Hfu) _ IH]; [reflexivity |].
  rewrite filter_cons_False; [exact IH |].
  unfold coincide. rewrite Hfu. intros [= <-]. exact (Hnot Hin).
Qed.

(** C6, as amended.  On a disk whose store the indexer has written, once
    the service is serving: for a request whose normalised entity is not
    empty and is none of the labels of the table, whose normalised entity
    and question standard output can encode, and whose question the
    embeddings provider embeds, the filtered search returns no chunk, the
    response is 200 with the no-information message, and the chat model is
    not invoked. *)
Theorem C6_etiqueta_desconocida_sin_error split_text env w g d v s :
  construido split_text w ->
  en_servicio format_exc env w g ->
  db g = Some d ->
  embed_query (embedding_function d) (pregunta s) = inr v ->
  strip (lower unicode_lower (entidad s)) <> [] ->
  strip (lower unicode_lower (entidad s)) ∉ etiquetas ->
  codificable (strip (lower unicode_lower (entidad s))) = true ->
  codificable (pregunta s) = true ->
  resultado (buscar d (pregunta s) 10 (strip (lower unicode_lower (entidad s))))
  = inr [] /\
  snd (post g s) =
  {| status := 200;
     body := Json [(py "contexto",
                    mensaje_sin_informacion
                      (strip (lower unicode_lower (entidad s))))] |} /\
  forall x, InvocaLLM x ∉ fst (post g s).
Proof.
  intros Hc Hs Hd Hv Hne Hnot Hn Hq.
  destruct (startup_componentes _ _ _ _ Hs) as (d' & l & Hd' & Hl & Hdir).
  rewrite Hd in Hd'. injection Hd' as <-.
  pose proof (construido_etiquetado _ _ Hc _ Hdir) as Het.
  assert (Hb : resultado (buscar d (pregunta s) 10
                            (strip (lower unicode_lower (entidad s)))) = inr []).
  { unfold similarity_search, resultado. cbn [snd]. rewrite Hv. f_equal.
    rewrite (filtro_etiqueta_ajena _ _ Het Hnot). reflexivity. }
  split; [exact Hb |].
  rewrite (sin_fragmentos_post _ _ _ _ Hd Hl Hne Hn Hq Hb).
  split; [reflexivity |]. intros x. cbn [fst]. no_en_lista.
Qed.

End ReclamosServicio.

(* ===================================================================== *)
(** ** The claims about the indexer *)
(* ===================================================================== *)

Section ReclamosIndexador.

Variable split_text : str -> list str.

Local Abbreviation indexar := (indexar_pdot split_text).
Local Abbreviation indexar_con' := (indexar_con split_text).
Local Abbreviation fragmentos_del_mapa' := (fragmentos_del_mapa split_text).
Local Abbreviation eventos_de' := (eventos_de split_text).
Local Abbreviation tropiezo' := (tropiezo split_text).
Local Abbreviation primer_tropiezo' := (primer_tropiezo split_text).

Lemma fragmentos_del_mapa_no_cargables mapa w :
  (forall et arch, (et, arch) ∈ mapa -> no_cargable w arch) ->
  fragmentos_del_mapa' mapa w = [].
Proof.
  unfold fragmentos_del_mapa. induction mapa as [| [et arch] mapa IH];
    intros H; [reflexivity |].
  cbn [flat_map]. rewrite fragmentos_de_no_cargable, IH.
  - reflexivity.
  - intros et' arch' Hin. apply (H et' arch'), elem_of_cons. by right.
  - apply (H et arch), elem_of_cons. by left.
Qed.

Lemma fragmentos_del_mapa_sin_entrada pre et arch post w :
  no_cargable w arch ->
  fragmentos_del_mapa' (pre ++ (et, arch) :: post) w
  = fragmentos_del_mapa' (pre ++ post) w.
Proof.
  intros H. unfold fragmentos_del_mapa. rewrite !flat_map_app.
  cbn [flat_map]. rewrite (fragmentos_de_no_cargable _ _ _ _ H). reflexivity.
Qed.

Lemma primer_tropiezo_sin_entrada pre entrada post w :
  primer_tropiezo' w (pre ++ entrada :: post) = None ->
  primer_tropiezo' w (pre ++ post) = None.
Proof.
  rewrite !primer_tropiezo_None. intros H x Hx. apply H.
  apply elem_of_app in Hx as [Hx | Hx]; apply elem_of_app;
    [left; exact Hx | right; apply elem_of_cons; right; exact Hx].
Qed.

(** What a run prints and calls holds what each turn of the loop does. *)
Lemma indexar_salida_turno mapa env w entrada ev :
  getenv_truthy env (py "GOOGLE_API_KEY") = true ->
  primer_tropiezo' w mapa = None ->
  entrada ∈ mapa -> ev ∈ eventos_de' w entrada ->
  ev ∈ salida (fst (indexar_con' mapa env w)).
Proof.
  intros Hk Hp Hin Hev.
  destruct (indexar_salida split_text mapa env w Hk) as (cola & -> & _).
  rewrite (recorridas_sin_tropiezo _ _ _ Hp).
  rewrite !elem_of_app. right. right. left.
  apply list_elem_of_In, in_flat_map. exists entrada.
  split; apply list_elem_of_In; assumption.
Qed.

(** C4, as amended.  Running the indexer a second time on the disk the
    first run left leaves the same disk; and, when the embeddings key is set
    and no uncaught exception ends the second run, the store after it holds
    exactly the chunks that run collected (no store when it collected
    none), whatever the first run had written. *)
Theorem C4_reindexar_idempotente env w :
  let r1 := indexar env w in
  let r2 := indexar env (mundo (fst r1)) in
  mundo (fst r2) = mundo (fst r1) /\
  (getenv_truthy env (py "GOOGLE_API_KEY") = true ->
   sin_excepcion (snd r2) ->
   directorios (mundo (fst r2)) !! DIRECTORIO_PERSISTENTE =
   match todos_los_fragmentos (fst r2) with
   | [] => None
   | f :: fs => Some (f :: fs)
   end).
Proof.
  cbv zeta. unfold indexar_pdot.
  destruct (getenv_truthy env (py "GOOGLE_API_KEY")) eqn:Hk.
  - destruct (primer_tropiezo' w MAPA_DE_PDOTS) as [e |] eqn:Hp.
    + destruct (indexar_tropiezo split_text MAPA_DE_PDOTS env w e Hk Hp)
        as (_ & Hm1 & _).
      assert (Hp2 : primer_tropiezo' (mundo (fst (indexar_con' MAPA_DE_PDOTS env w)))
                      MAPA_DE_PDOTS = Some e).
      { rewrite <- Hp. apply primer_tropiezo_pdfs; rewrite Hm1; reflexivity. }
      destruct (indexar_tropiezo split_text MAPA_DE_PDOTS env _ e Hk Hp2)
        as (Hs2 & Hm2 & _).
      split.
      * rewrite Hm2, Hm1. unfold rmtree. cbn [pdfs directorios no_archivos].
        rewrite delete_delete_eq. reflexivity.
      * intros _ Hs. rewrite Hs2 in Hs. destruct Hs.
    + destruct (indexar_resultado split_text MAPA_DE_PDOTS env w Hk Hp)
        as (_ & _ & Hm1).
      assert (Hp2 : primer_tropiezo' (mundo (fst (indexar_con' MAPA_DE_PDOTS env w)))
                      MAPA_DE_PDOTS = None).
      { rewrite <- Hp. apply primer_tropiezo_pdfs; rewrite Hm1; reflexivity. }
      destruct (indexar_resultado split_text MAPA_DE_PDOTS env
                  (mundo (fst (indexar_con' MAPA_DE_PDOTS env w))) Hk Hp2)
        as (Ht2 & _ & Hm2).
      rewrite Ht2, Hm2.
      assert (Hf : fragmentos_del_mapa' MAPA_DE_PDOTS
                     (mundo (fst (indexar_con' MAPA_DE_PDOTS env w)))
                   = fragmentos_del_mapa' MAPA_DE_PDOTS w).
      { apply fragmentos_del_mapa_pdfs. rewrite Hm1. reflexivity. }
      rewrite Hf, Hm1. cbn [pdfs directorios no_archivos].
      destruct (fragmentos_del_mapa' MAPA_DE_PDOTS w) as [| f fs].
      * rewrite delete_delete_eq. split; [reflexivity |].
        intros _ _. apply lookup_delete_eq.
      * rewrite insert_insert_eq. split; [reflexivity |].
        intros _ _. apply lookup_insert_eq.
  - rewrite !(indexar_sin_clave _ _ _ _ Hk). cbn [fst mundo emite estado_inicial].
    split; [reflexivity | discriminate].
Qed.

(** C5, as amended.  In a run with the embeddings key set that no uncaught
    exception ends, an entry of the table whose file is missing, or whose
    load raises, is skipped with its warning; every entry after it still
    gets its turn; and the run collects the chunks, leaves the disk and
    ends as the run over the table without that entry does. *)
Theorem C5_entrada_no_cargable_se_salta env w pre et arch post :
  getenv_truthy env (py "GOOGLE_API_KEY") = true ->
  MAPA_DE_PDOTS = pre ++ (et, arch) :: post ->
  no_cargable w arch ->
  sin_excepcion (snd (indexar env w)) ->
  let r := indexar env w in
  let r' := indexar_con' (pre ++ post) env w in
  (pdfs w !! strip arch = None -> aviso_faltante arch ∈ salida (fst r)) /\
  (forall e, pdfs w !! strip arch = Some (inl e) ->
             aviso_fallo arch e ∈ salida (fst r)) /\
  (forall entrada, entrada ∈ post -> cabecera entrada ∈ salida (fst r)) /\
  todos_los_fragmentos (fst r) = todos_los_fragmentos (fst r') /\
  mundo (fst r) = mundo (fst r') /\
  snd r = snd r'.
Proof.
  intros Hk Hmapa Hno Hs. cbv zeta. unfold indexar_pdot in *.
  rewrite Hmapa in *.
  pose proof (sin_excepcion_primer split_text _ _ _ Hk Hs) as Hp.
  pose proof (primer_tropiezo_sin_entrada _ _ _ _ Hp) as Hp'.
  assert (Hin : (et, arch) ∈ pre ++ (et, arch) :: post).
  { apply elem_of_app. right. apply elem_of_cons. by left. }
  pose proof (proj1 (primer_tropiezo_None _ _ _) Hp _ Hin) as Ht.
  rewrite tropiezo_eq in Ht.
  split; [| split; [| split; [| split; [| split]]]].
  - intros Hnone. rewrite Hnone in Ht.
    apply (indexar_salida_turno _ _ _ (et, arch)); [done | done | done |].
    rewrite eventos_de_faltante; [no_en_lista | exact Hnone |].
    destruct (bool_decide (strip arch ∈ no_archivos w)) eqn:Hb;
      [discriminate | exact (bool_decide_eq_false_1 _ Hb)].
  - intros e He. rewrite He in Ht.
    apply (indexar_salida_turno _ _ _ (et, arch)); [done | done | done |].
    rewrite (eventos_de_fallo _ _ _ _ e He); [no_en_lista |].
    destruct (codificable _); [reflexivity | discriminate].
  - intros entrada Hpost.
    apply (indexar_salida_turno _ _ _ entrada); [done | done | |].
    + apply elem_of_app. right. apply elem_of_cons. by right.
    + apply eventos_de_cabecera.
  - destruct (indexar_resultado split_text (pre ++ (et, arch) :: post) env w
                Hk Hp) as (-> & _ & _).
    destruct (indexar_resultado split_text (pre ++ post) env w Hk Hp')
      as (-> & _ & _).
    apply fragmentos_del_mapa_sin_entrada, Hno.
  - destruct (indexar_resultado split_text (pre ++ (et, arch) :: post) env w
                Hk Hp) as (_ & _ & ->).
    destruct (indexar_resultado split_text (pre ++ post) env w Hk Hp')
      as (_ & _ & ->).
    rewrite (fragmentos_del_mapa_sin_entrada _ _ _ _ _ Hno). reflexivity.
  - destruct (indexar_resultado split_text (pre ++ (et, arch) :: post) env w
                Hk Hp) as (_ & -> & _).
    destruct (indexar_resultado split_text (pre ++ post) env w Hk Hp')
      as (_ & -> & _).
    rewrite (fragmentos_del_mapa_sin_entrada _ _ _ _ _ Hno). reflexivity.
Qed.

(** C9, as amended.  In a run with the embeddings key set, a store found on
    disk is removed before any input file is examined; and when every file
    of the table is missing or fails to load, and no uncaught exception
    ends the run, the run ends in [exit()] right after printing the fatal
    error, with no store directory on disk. *)
Theorem C9_borra_antes_de_examinar env w :
  getenv_truthy env (py "GOOGLE_API_KEY") = true ->
  let r := indexar env w in
  (forall chunks,
     directorios w !! DIRECTORIO_PERSISTENTE = Some chunks ->
     exists antes despues,
       salida (fst r) = antes ++ BorraArbol DIRECTORIO_PERSISTENTE :: despues /\
       Forall (fun ev => ~ examina_archivo ev) antes) /\
  ((forall et arch, (et, arch) ∈ MAPA_DE_PDOTS -> no_cargable w arch) ->
   sin_excepcion (snd r) ->
   snd r = Salida /\
   directorios (mundo (fst r)) !! DIRECTORIO_PERSISTENTE = None /\
   last (salida (fst r))
   = Some (Imprime (py "!!! ERROR FATAL: No se procesó ningún documento."))).
Proof.
  intros Hk. cbv zeta. unfold indexar_pdot. split.
  - intros chunks Hdir.
    destruct (indexar_salida split_text MAPA_DE_PDOTS env w Hk) as (cola & -> & _).
    rewrite (fase0_salida_con_almacen (estado_inicial w) chunks Hdir).
    eexists _, _. split.
    + rewrite <- app_assoc. cbn [app]. reflexivity.
    + cbn. repeat constructor; cbn; tauto.
  - intros Hall Hs.
    pose proof (sin_excepcion_primer split_text _ _ _ Hk Hs) as Hp.
    pose proof (fragmentos_del_mapa_no_cargables _ _ Hall) as Hf.
    destruct (indexar_resultado split_text MAPA_DE_PDOTS env w Hk Hp)
      as (_ & -> & ->).
    destruct (indexar_salida split_text MAPA_DE_PDOTS env w Hk)
      as (cola & -> & Hcola & _).
    rewrite (Hcola Hp Hf), Hf. cbn [directorios].
    split; [reflexivity | split].
    + apply lookup_delete_eq.
    + rewrite !app_assoc. apply last_snoc.
Qed.

End ReclamosIndexador.

(* ===================================================================== *)
(** ** Configuration, and the claims at concrete inputs *)
(* ===================================================================== *)

(** C7.  The service reads both keys from the environment: a start that
    returns holds them in the components it has loaded; when either is
    unset or empty the start raises its fatal [ValueError], so the
    application does not start.  The indexer, which uses the embeddings key
    only, prints its error and exits at once when that key is unset or
    empty, the disk untouched. *)
Theorem C7_claves_obligatorias split_text format_exc env w :
  (getenv_truthy env (py "GOOGLE_API_KEY") = false \/
   getenv_truthy env (py "OPENAI_API_KEY") = false ->
   resultado (startup_event format_exc env w) =
   inl (ValueError
          (py "!!! ERROR FATAL: Faltan claves (GOOGLE o OPENAI) en las variables de entorno."))) /\
  (forall g, en_servicio format_exc env w g ->
     exists d l, db g = Some d /\ llm g = Some l /\
       env !! py "GOOGLE_API_KEY" = Some (google_api_key (embedding_function d)) /\
       env !! py "OPENAI_API_KEY" = Some (openai_api_key l)) /\
  (getenv_truthy env (py "GOOGLE_API_KEY") = false ->
   indexar_pdot split_text env w =
   (emite [Imprime (py "!!! ERROR: No se encontró la GOOGLE_API_KEY en el archivo .env")]
          (estado_inicial w),
    Salida)).
Proof.
  split; [| split].
  - intros H.
    assert (Hc : negb (getenv_truthy env (py "GOOGLE_API_KEY")
                       && getenv_truthy env (py "OPENAI_API_KEY")) = true).
    { destruct H as [-> | ->]; [reflexivity |].
      rewrite andb_false_r. reflexivity. }
    apply negb_true_iff in Hc.
    rewrite (startup_sin_claves format_exc env w Hc). reflexivity.
  - intros g Hg.
    destruct (startup_carga _ _ _ _ Hg)
      as (kg & ko & chunks & Hkg & _ & Hko & _ & _ & ->).
    eexists _, _. repeat split; assumption.
  - intros H. exact (indexar_sin_clave split_text MAPA_DE_PDOTS env w H).
Qed.

Lemma C7_testigo :
  getenv_truthy env_sin_openai (py "OPENAI_API_KEY") = false /\
  resultado (startup_event traza env_sin_openai mundo_indexado) =
  inl (ValueError
         (py "!!! ERROR FATAL: Faltan claves (GOOGLE o OPENAI) en las variables de entorno.")) /\
  snd (indexar_pdot un_fragmento env_sin_claves mundo_sin_pdfs) = Salida.
Proof.
  split; [reflexivity |]. split.
  - apply (C7_claves_obligatorias un_fragmento traza env_sin_openai mundo_indexado).
    right. reflexivity.
  - destruct (C7_claves_obligatorias un_fragmento traza env_sin_claves
                mundo_sin_pdfs) as (_ & _ & H).
    rewrite H; reflexivity.
Defined.

(** C1 (the code departs from the claim).  On the store indexed from the
    Paltas PDF, the search for ["paltas"] returns a chunk and the chat model
    would answer; the handler nevertheless answers 500, for the name
    [prompt_sintesis] that line 108 reads and no line binds, and the chat
    model is never invoked. *)
Theorem C1_fragmentos_encontrados_responde_500 :
  (exists doc,
     resultado (similarity_search unit embed_nulo distancia_nula chroma_indexado
                  (py "¿Qué proyectos hay?") 10 (py "paltas")) = inr [doc]) /\
  (forall prompt, llm_eco chat_ejemplo prompt = inr (py "respuesta generada")) /\
  snd (post_ejemplo embed_nulo globals_indexado "¿Qué proyectos hay?" "paltas") =
  {| status := 500;
     body := Json [(py "detail",
                    py "Error interno del servidor: name 'prompt_sintesis' is not defined"
                    ++ nl
                    ++ traza (NameError (py "prompt_sintesis")))] |} /\
  (forall v,
     InvocaLLM v ∉
     fst (post_ejemplo embed_nulo globals_indexado "¿Qué proyectos hay?" "paltas")).
Proof.
  split; [eexists; vm_compute; reflexivity |].
  split; [reflexivity |].
  assert (Hb : exists doc,
             resultado (similarity_search unit embed_nulo distancia_nula
                          chroma_indexado (py "¿Qué proyectos hay?") 10
                          (strip (lower id (py "paltas")))) = inr [doc])
    by (eexists; vm_compute; reflexivity).
  destruct Hb as (doc & Hb).
  destruct (con_fragmentos_responde_500 id traza unit embed_nulo distancia_nula
              llm_eco globals_indexado chroma_indexado chat_ejemplo
              (mkSolicitud (py "¿Qué proyectos hay?") (py "paltas")) doc [])
    as (H1 & H2);
    [reflexivity | reflexivity | vm_compute; discriminate
     | vm_compute; reflexivity | vm_compute; reflexivity | exact Hb |].
  split; [| exact H2].
  unfold post_ejemplo. rewrite H1. vm_compute. reflexivity.
Qed.

(** C2, the claim as stated fails: with the components not loaded (the
    globals as the module leaves them), the empty entity is answered 503. *)
Lemma C2_contraejemplo_sin_componentes :
  strip (lower id (py "")) = [] /\
  snd (post_ejemplo embed_nulo globals_iniciales "¿Qué proyectos hay?" "") =
  {| status := 503;
     body := Json [(py "detail",
                    py "Servicio no disponible: Los componentes de IA no están cargados.")] |}.
Proof. split; vm_compute; reflexivity. Qed.

Lemma C2_testigo :
  strip (lower id (py "   ")) = [] /\
  codificable (py "¿Qué proyectos hay?") = true /\
  snd (post_ejemplo embed_nulo globals_indexado "¿Qué proyectos hay?" "   ") =
  {| status := 400;
     body := Json [(py "detail",
                    py "Error: El campo 'entidad' no puede estar vacío.")] |}.
Proof.
  split; [vm_compute; reflexivity |]. split; [vm_compute; reflexivity |].
  apply (C2_entidad_vacia_400_o_503 id traza unit embed_nulo distancia_nula
           llm_eco globals_indexado
           (mkSolicitud (py "¿Qué proyectos hay?") (py "   ")));
    vm_compute; reflexivity.
Defined.

(** C3, the claim as stated fails.  The entity made of the one code point
    U+D800, which a JSON body carries as an escape, is not empty and no
    chunk of the store bears it, so that the filtered search returns no
    chunk; the handler raises at the [print] of line 67, before its [try],
    and the response is the bare 500 of the framework, not the message. *)
Lemma C3_contraejemplo_sustituto :
  strip (lower id [55296]) = [55296] /\
  resultado (similarity_search unit embed_nulo distancia_nula chroma_indexado
               (py "¿Qué proyectos hay?") 10 (strip (lower id [55296])))
  = inr [] /\
  post_extraer_contexto id traza unit embed_nulo distancia_nula llm_eco
    globals_indexado (mkSolicitud (py "¿Qué proyectos hay?") [55296])
  = ([], {| status := 500; body := Texto (py "Internal Server Error") |}).
Proof. split; [| split]; vm_compute; reflexivity. Qed.

Lemma C3_testigo :
  codificable (strip (lower id (py "Loja"))) = true /\
  codificable (py "¿Qué proyectos hay?") = true /\
  resultado (similarity_search unit embed_nulo distancia_nula chroma_indexado
               (py "¿Qué proyectos hay?") 10 (strip (lower id (py "Loja"))))
  = inr [] /\
  snd (post_ejemplo embed_nulo globals_indexado "¿Qué proyectos hay?" "Loja") =
  {| status := 200;
     body := Json [(py "contexto",
                    py "No se encontró información específica para la entidad '"
                    ++ py "loja" ++ py "' sobre la consulta realizada.")] |}.
Proof.
  split; [vm_compute; reflexivity |]. split; [vm_compute; reflexivity |].
  split; [vm_compute; reflexivity |].
  apply (C3_sin_fragmentos_mensaje_fijo id traza unit embed_nulo distancia_nula
           llm_eco globals_indexado chroma_indexado chat_ejemplo
           (mkSolicitud (py "¿Qué proyectos hay?") (py "Loja")));
    [reflexivity | reflexivity | vm_compute; discriminate
     | vm_compute; reflexivity | vm_compute; reflexivity
     | vm_compute; reflexivity].
Defined.

(** C8, the claim as stated fails.  A question holding the code point
    U+D800 makes the [print] of line 67 raise while the request is being
    processed; that line stands before the [try], the exception leaves the
    handler, and the response is the bare 500 of the framework, with no
    traceback in its body. *)
Lemma C8_contraejemplo_linea_67 :
  extraer_contexto id traza unit embed_nulo distancia_nula llm_eco
    globals_indexado (mkSolicitud [55296] (py "paltas"))
  = ([], inl (UnicodeEncodeError
                (linea_de_solicitud (py "paltas") [55296]) 52 53)) /\
  exn_str (UnicodeEncodeError (linea_de_solicitud (py "paltas") [55296]) 52 53)
  = py "'utf-8' codec can't encode character '\ud800' in position 52: surrogates not allowed" /\
  post_extraer_contexto id traza unit embed_nulo distancia_nula llm_eco
    globals_indexado (mkSolicitud [55296] (py "paltas"))
  = ([], {| status := 500; body := Texto (py "Internal Server Error") |}).
Proof. split; [| split]; vm_compute; reflexivity. Qed.

Lemma C8_testigo :
  codificable (strip (lower id (py "paltas"))) = true /\
  codificable (py "¿Qué proyectos hay?") = true /\
  codificable (exn_str (LibraryError (py "ConnectError") (py "sin red"))) = true /\
  resultado (procesar unit embed_caido distancia_nula llm_eco chroma_indexado
               chat_ejemplo (py "¿Qué proyectos hay?") (py "paltas"))
  = inl (LibraryError (py "ConnectError") (py "sin red")) /\
  snd (post_ejemplo embed_caido globals_indexado "¿Qué proyectos hay?" "paltas") =
  {| status := 500;
     body := Json [(py "detail",
                    py "Error interno del servidor: " ++ py "sin red" ++ nl
                    ++ traza (LibraryError (py "ConnectError") (py "sin red")))] |}.
Proof.
  split; [vm_compute; reflexivity |]. split; [vm_compute; reflexivity |].
  split; [vm_compute; reflexivity |]. split; [vm_compute; reflexivity |].
  apply (C8_excepcion_500_con_traza id traza unit embed_caido distancia_nula
           llm_eco globals_indexado chroma_indexado chat_ejemplo
           (mkSolicitud (py "¿Qué proyectos hay?") (py "paltas"))
           (LibraryError (py "ConnectError") (py "sin red")));
    [reflexivity | reflexivity | vm_compute; discriminate
     | vm_compute; reflexivity | vm_compute; reflexivity
     | vm_compute; reflexivity | vm_compute; reflexivity].
Defined.


(** C6, the claim as stated fails.  On a store the indexer has written and
    with the service serving: the empty entity is none of the labels, and it
    is answered with status 400; the entity [PALTAS] is none of the labels as
    written either, yet its filtered search returns a chunk. *)
Lemma C6_contraejemplo_entidad_vacia :
  construido un_fragmento mundo_indexado /\
  en_servicio traza env_completo mundo_indexado globals_indexado /\
  (py "" ∉ etiquetas) /\
  status (snd (post_ejemplo embed_nulo globals_indexado "¿Qué proyectos hay?" ""))
  = 400%Z /\
  (py "PALTAS" ∉ etiquetas) /\
  (exists doc,
     resultado (similarity_search unit embed_nulo distancia_nula chroma_indexado
                  (py "¿Qué proyectos hay?") 10 (strip (lower id (py "PALTAS"))))
     = inr [doc]).
Proof.
  split; [| split; [| split; [| split; [| split]]]].
  - apply (construido_indexar un_fragmento env_completo mundo_paltas).
    apply construido_sin_indice. vm_compute. reflexivity.
  - vm_compute. reflexivity.
  - apply (bool_decide_eq_false_1 _). vm_compute. reflexivity.
  - vm_compute. reflexivity.
  - apply (bool_decide_eq_false_1 _). vm_compute. reflexivity.
  - eexists. vm_compute. reflexivity.
Qed.

(** The same unknown label with the embeddings provider failing: 500. *)
Example post_loja_embeddings_caidos :
  status (snd (post_ejemplo embed_caido globals_indexado "¿Qué proyectos hay?" "Loja"))
  = 500%Z.
Proof. vm_compute. reflexivity. Qed.

Lemma C6_testigo :
  construido un_fragmento mundo_indexado /\
  (strip (lower id (py " Loja ")) ∉ etiquetas) /\
  codificable (strip (lower id (py " Loja "))) = true /\
  codificable (py "¿Qué proyectos hay?") = true /\
  snd (post_ejemplo embed_nulo globals_indexado "¿Qué proyectos hay?" " Loja ") =
  {| status := 200;
     body := Json [(py "contexto", mensaje_sin_informacion (py "loja"))] |}.
Proof.
  assert (Hc : construido un_fragmento mundo_indexado).
  { apply (construido_indexar un_fragmento env_completo mundo_paltas).
    apply construido_sin_indice. reflexivity. }
  assert (Hn : strip (lower id (py " Loja ")) ∉ etiquetas).
  { apply (bool_decide_eq_false_1 _). vm_compute. reflexivity. }
  split; [exact Hc |]. split; [exact Hn |].
  split; [vm_compute; reflexivity |]. split; [vm_compute; reflexivity |].
  apply (C6_etiqueta_desconocida_sin_error id traza unit embed_nulo
           distancia_nula llm_eco un_fragmento env_completo mundo_indexado
           globals_indexado chroma_indexado tt
           (mkSolicitud (py "¿Qué proyectos hay?") (py " Loja ")));
    [exact Hc | vm_compute; reflexivity | reflexivity | reflexivity
     | vm_compute; discriminate | exact Hn
     | vm_compute; reflexivity | vm_compute; reflexivity].
Defined.

(** C4, the claim as stated fails: with the embeddings key unset, two runs
    in a row on a disk that holds the Paltas PDF and an older store leave
    that store as it was; they collect no chunk and remove nothing. *)
Lemma C4_contraejemplo_sin_clave :
  getenv_truthy env_sin_claves (py "GOOGLE_API_KEY") = false /\
  todos_los_fragmentos
    (fst (indexar_pdot un_fragmento env_sin_claves
            (mundo (fst (indexar_pdot un_fragmento env_sin_claves
                           mundo_almacen_antiguo))))) = [] /\
  directorios
    (mundo (fst (indexar_pdot un_fragmento env_sin_claves
                   (mundo (fst (indexar_pdot un_fragmento env_sin_claves
                                  mundo_almacen_antiguo))))))
  !! DIRECTORIO_PERSISTENTE
  = Some [etiquetar (py "paltas") (py "PDOT_Paltas.pdf")
            (pagina "PDOT_Paltas.pdf" "texto antiguo" 0)] /\
  salida
    (fst (indexar_pdot un_fragmento env_sin_claves
            (mundo (fst (indexar_pdot un_fragmento env_sin_claves
                           mundo_almacen_antiguo)))))
  = [Imprime (py ">>> Variables de entorno cargadas.");
     Imprime (py ">>> INICIANDO EL PROCESO DE INDEXACION LOCAL (ChromaDB)...");
     Imprime (py "!!! ERROR: No se encontró la GOOGLE_API_KEY en el archivo .env")].
Proof.
  split; [| split; [| split]]; vm_compute; reflexivity.
Qed.

(** C5, the claim as stated fails.  With the embeddings key unset the run
    prints three lines, none a warning, and exits before the loop; with the
    key set and every file missing, the Paltas entry is skipped with its
    warning and the run then ends in [exit()] on the fatal error. *)
Lemma C5_contraejemplo_aborta :
  no_cargable mundo_sin_pdfs (py "PDOT_Paltas.pdf") /\
  indexar_pdot un_fragmento env_sin_claves mundo_sin_pdfs
  = ({| mundo := mundo_sin_pdfs;
        salida :=
          [Imprime (py ">>> Variables de entorno cargadas.");
           Imprime (py ">>> INICIANDO EL PROCESO DE INDEXACION LOCAL (ChromaDB)...");
           Imprime (py "!!! ERROR: No se encontró la GOOGLE_API_KEY en el archivo .env")];
        todos_los_fragmentos := [];
        excepcion := None |},
     Salida) /\
  getenv_truthy env_completo (py "GOOGLE_API_KEY") = true /\
  snd (indexar_pdot un_fragmento env_completo mundo_sin_pdfs) = Salida /\
  last (salida (fst (indexar_pdot un_fragmento env_completo mundo_sin_pdfs)))
  = Some (Imprime (py "!!! ERROR FATAL: No se procesó ningún documento.")).
Proof.
  split; [left; vm_compute; reflexivity |].
  split; [| split; [| split]]; vm_compute; reflexivity.
Qed.

(** C9, the claim as stated fails: with the embeddings key unset and every
    file of the table missing, the run exits with the older store still on
    disk. *)
Lemma C9_contraejemplo_sin_clave :
  (forall et arch, (et, arch) ∈ MAPA_DE_PDOTS -> no_cargable mundo_sin_pdfs arch) /\
  snd (indexar_pdot un_fragmento env_sin_claves mundo_sin_pdfs) = Salida /\
  directorios (mundo (fst (indexar_pdot un_fragmento env_sin_claves mundo_sin_pdfs)))
  !! DIRECTORIO_PERSISTENTE
  = Some [etiquetar (py "paltas") (py "PDOT_Paltas.pdf")
            (pagina "PDOT_Paltas.pdf" "texto antiguo" 0)].
Proof.
  split; [intros et arch _; left; apply lookup_empty |].
  split; vm_compute; reflexivity.
Qed.

Lemma C4_testigo :
  getenv_truthy env_completo (py "GOOGLE_API_KEY") = true /\
  sin_excepcion (snd (indexar_pdot un_fragmento env_completo mundo_indexado)) /\
  mundo (fst (indexar_pdot un_fragmento env_completo mundo_indexado))
  = mundo_indexado /\
  directorios
    (mundo (fst (indexar_pdot un_fragmento env_completo mundo_indexado)))
  !! DIRECTORIO_PERSISTENTE =
  match todos_los_fragmentos
          (fst (indexar_pdot un_fragmento env_completo mundo_indexado)) with
  | [] => None
  | f :: fs => Some (f :: fs)
  end.
Proof.
  destruct (C4_reindexar_idempotente un_fragmento env_completo mundo_paltas)
    as (H1 & H2).
  split; [vm_compute; reflexivity |].
  split; [vm_compute; exact I |].
  split; [exact H1 | apply H2; [vm_compute; reflexivity | vm_compute; exact I]].
Defined.

Lemma C5_testigo :
  getenv_truthy env_completo (py "GOOGLE_API_KEY") = true /\
  no_cargable mundo_paltas (py "PDOT_Pindal.pdf") /\
  sin_excepcion (snd (indexar_pdot un_fragmento env_completo mundo_paltas)) /\
  (aviso_faltante (py "PDOT_Pindal.pdf")
   ∈ salida (fst (indexar_pdot un_fragmento env_completo mundo_paltas))) /\
  snd (indexar_pdot un_fragmento env_completo mundo_paltas)
  = snd (indexar_con un_fragmento
           [ (py "paltas", py "PDOT_Paltas.pdf");
             (py "catamayo", py "PDyOT_Catamayo.pdf");
             (py "chaguarpamba", py "PDyOT_Chaguarpamba.pdf") ]
           env_completo mundo_paltas).
Proof.
  assert (Hn : no_cargable mundo_paltas (py "PDOT_Pindal.pdf"))
    by (left; vm_compute; reflexivity).
  assert (Hs : sin_excepcion
                 (snd (indexar_pdot un_fragmento env_completo mundo_paltas)))
    by (vm_compute; exact I).
  split; [reflexivity |]. split; [exact Hn |]. split; [exact Hs |].
  destruct (C5_entrada_no_cargable_se_salta un_fragmento env_completo
              mundo_paltas [(py "paltas", py "PDOT_Paltas.pdf")]
              (py "pindal") (py "PDOT_Pindal.pdf")
              [ (py "catamayo", py "PDyOT_Catamayo.pdf");
                (py "chaguarpamba", py "PDyOT_Chaguarpamba.pdf") ]
              eq_refl eq_refl Hn Hs)
    as (H1 & _ & _ & _ & _ & H6).
  split; [apply H1; vm_compute; reflexivity | exact H6].
Defined.

Lemma C9_testigo :
  getenv_truthy env_completo (py "GOOGLE_API_KEY") = true /\
  (forall et arch, (et, arch) ∈ MAPA_DE_PDOTS -> no_cargable mundo_sin_pdfs arch) /\
  sin_excepcion (snd (indexar_pdot un_fragmento env_completo mundo_sin_pdfs)) /\
  snd (indexar_pdot un_fragmento env_completo mundo_sin_pdfs) = Salida /\
  directorios (mundo (fst (indexar_pdot un_fragmento env_completo mundo_sin_pdfs)))
  !! DIRECTORIO_PERSISTENTE = None.
Proof.
  assert (Hall : forall et arch,
             (et, arch) ∈ MAPA_DE_PDOTS -> no_cargable mundo_sin_pdfs arch)
    by (intros et arch _; left; apply lookup_empty).
  assert (Hs : sin_excepcion
                 (snd (indexar_pdot un_fragmento env_completo mundo_sin_pdfs)))
    by (vm_compute; exact I).
  split; [reflexivity |]. split; [exact Hall |]. split; [exact Hs |].
  destruct (C9_borra_antes_de_examinar un_fragmento env_completo mundo_sin_pdfs
              eq_refl) as (_ & H).
  destruct (H Hall Hs) as (H1 & H2 & _). split; assumption.
Defined.

(* ===================================================================== *)
(** ** Further properties of the start of the service *)
(* ===================================================================== *)

Section InicioDelServicio.

Variable format_exc : Exn -> Imprimible.

(** X1.  With both keys set and no store directory on disk, the start
    raises [FileNotFoundError] naming the directory. *)
Theorem X1_startup_sin_directorio env w :
  getenv_truthy env (py "GOOGLE_API_KEY") = true ->
  getenv_truthy env (py "OPENAI_API_KEY") = true ->
  directorios w !! DIRECTORIO_DB = None ->
  resultado (startup_event format_exc env w) =
  inl (FileNotFoundError
         (py "!!! ERROR FATAL: No se encuentra el directorio '" ++ DIRECTORIO_DB
          ++ py "'. ¿Olvidaste subir la base de datos?")).
Proof.
  intros Hg Ho Hdir.
  rewrite (startup_sin_directorio format_exc env w Hg Ho Hdir). reflexivity.
Qed.

(** The start with both keys set and a store directory on disk. *)
Lemma startup_con_directorio env w chunks :
  getenv_truthy env (py "GOOGLE_API_KEY") = true ->
  getenv_truthy env (py "OPENAI_API_KEY") = true ->
  directorios w !! DIRECTORIO_DB = Some chunks ->
  startup_event format_exc env w =
  ([ Imprime (py ">>> Evento de inicio: Iniciando carga de componentes...");
     Imprime (py ">>> Claves de API validadas.");
     Imprime (py ">>> Cargando Embeddings de Google...");
     Imprime (py ">>> Cargando Base de Datos Chroma desde '" ++ DIRECTORIO_DB
              ++ py "'...");
     ConsultaRuta DIRECTORIO_DB true;
     Imprime (py ">>> Base de Datos Chroma cargada.");
     Imprime (py ">>> Cargando LLM (GPT-4o)...");
     Imprime (py ">>> ¡Todos los componentes cargados con éxito! Servidor listo.") ],
   inr {| db := Some {| persist_directory := DIRECTORIO_DB;
                        embedding_function :=
                          {| emb_model := py "models/text-embedding-004";
                             google_api_key :=
                               default [] (env !! py "GOOGLE_API_KEY") |};
                        coleccion := chunks |};
          llm := Some {| model := py "gpt-4o";
                         openai_api_key :=
                           default [] (env !! py "OPENAI_API_KEY") |} |}).
Proof.
  intros Hg Ho Hdir. unfold startup_event.
  rewrite bind_print by codif. rewrite Hg, Ho. cbn [andb negb].
  rewrite !bind_print by codif. rewrite Hdir.
  rewrite !bind_print by codif. reflexivity.
Qed.

(** X2.  The start returns exactly when both keys are set (and not empty)
    and the store directory exists; the store it then serves is opened on
    that directory and holds the chunks found there. *)
Theorem X2_startup_exito_sii env w :
  ((exists g, en_servicio format_exc env w g) <->
   getenv_truthy env (py "GOOGLE_API_KEY") = true /\
   getenv_truthy env (py "OPENAI_API_KEY") = true /\
   is_Some (directorios w !! DIRECTORIO_DB)) /\
  (forall g, en_servicio format_exc env w g ->
     exists d, db g = Some d /\ persist_directory d = DIRECTORIO_DB /\
               directorios w !! DIRECTORIO_DB = Some (coleccion d)).
Proof.
  split; [split |].
  - intros [g Hg].
    destruct (startup_carga _ _ _ _ Hg)
      as (kg & ko & chunks & Hkg & Hng & Hko & Hno & Hdir & _).
    unfold getenv_truthy. rewrite Hkg, Hko, Hdir.
    destruct kg; [done |]. destruct ko; [done |]. repeat split. by eexists.
  - intros (Hg & Ho & [chunks Hdir]). eexists. unfold en_servicio.
    rewrite (startup_con_directorio _ _ _ Hg Ho Hdir). reflexivity.
  - intros g Hg.
    destruct (startup_carga _ _ _ _ Hg)
      as (kg & ko & chunks & _ & _ & _ & _ & Hdir & ->).
    eexists. repeat split. exact Hdir.
Qed.

(** X3.  A start that fails ends its output with the critical-error line
    carrying the traceback of the exception it re-raises; a start that
    returns ends it with the ready line. *)
Theorem X3_startup_ultima_linea env w :
  last (eventos (startup_event format_exc env w)) =
  match resultado (startup_event format_exc env w) with
  | inl e =>
    Some (Imprime (py "!!! ERROR CRÍTICO DURANTE EL INICIO: " ++ format_exc e))
  | inr _ =>
    Some (Imprime (py ">>> ¡Todos los componentes cargados con éxito! Servidor listo."))
  end.
Proof.
  destruct (getenv_truthy env (py "GOOGLE_API_KEY")) eqn:Hg;
    [destruct (getenv_truthy env (py "OPENAI_API_KEY")) eqn:Ho;
     [destruct (directorios w !! DIRECTORIO_DB) as [chunks |] eqn:Hdir |] |].
  - rewrite (startup_con_directorio _ _ _ Hg Ho Hdir). reflexivity.
  - rewrite (startup_sin_directorio format_exc _ _ Hg Ho Hdir). reflexivity.
  - rewrite (startup_sin_claves format_exc env w)
      by (rewrite Hg, Ho; reflexivity).
    reflexivity.
  - rewrite (startup_sin_claves format_exc env w)
      by (rewrite Hg; reflexivity).
    reflexivity.
Qed.

End InicioDelServicio.

Lemma X1_testigo :
  directorios mundo_paltas !! DIRECTORIO_DB = None /\
  resultado (startup_event traza env_completo mundo_paltas) =
  inl (FileNotFoundError
         (py "!!! ERROR FATAL: No se encuentra el directorio '" ++ DIRECTORIO_DB
          ++ py "'. ¿Olvidaste subir la base de datos?")).
Proof.
  split; [vm_compute; reflexivity |].
  apply (X1_startup_sin_directorio traza env_completo mundo_paltas);
    vm_compute; reflexivity.
Defined.

(* ===================================================================== *)
(** ** Further properties of the request handler *)
(* ===================================================================== *)

Section LlamadasDelManejador.

Variable unicode_lower : str -> str.
Variable format_exc : Exn -> Imprimible.
Variable Embedding : Type.
Variable embed_query : GoogleGenerativeAIEmbeddings -> str -> Exn + Embedding.
Variable distancia : Embedding -> str -> N.
Variable llm_invoke : ChatOpenAI -> Valor -> Exn + str.

Local Abbreviation buscar := (similarity_search Embedding embed_query distancia).
Local Abbreviation procesar' :=
  (procesar Embedding embed_query distancia llm_invoke).
Local Abbreviation extraer :=
  (extraer_contexto unicode_lower format_exc Embedding embed_query distancia
     llm_invoke).
Local Abbreviation post :=
  (post_extraer_contexto unicode_lower format_exc Embedding embed_query
     distancia llm_invoke).

(** What a rejected request prints and calls: its first line, nothing more. *)
Lemma eventos_rechazada g s :
  db g = None \/ llm g = None \/ strip (lower unicode_lower (entidad s)) = [] ->
  codificable (strip (lower unicode_lower (entidad s))) = true ->
  codificable (pregunta s) = true ->
  fst (post g s) =
  [ Imprime (linea_de_solicitud (strip (lower unicode_lower (entidad s)))
               (pregunta s)) ].
Proof.
  intros H Hn Hq. unfold post_extraer_contexto, extraer_contexto.
  rewrite bind_print by (apply linea_de_solicitud_ok; assumption).
  cbn [fst eventos].
  destruct (db g) as [d |]; [destruct (llm g) as [l |] |]; try reflexivity.
  destruct H as [H | [H | H]]; [discriminate | discriminate |].
  rewrite H. reflexivity.
Qed.

(** A request whose first line cannot be printed prints and calls nothing. *)
Lemma post_linea_no_codificable g s :
  codificable (linea_de_solicitud (strip (lower unicode_lower (entidad s)))
                 (pregunta s)) = false ->
  post g s = ([], error_del_servidor).
Proof.
  intros H. unfold post_extraer_contexto.
  rewrite (extraer_linea_no_codificable _ _ _ _ _ _ _ _ H). reflexivity.
Qed.

(** X4.  The only call a request makes outside the process is one
    similarity search, on the question as sent, for ten chunks, filtered on
    the normalised entity; and it makes it only when both components are
    loaded and that entity is not empty.  A request answered 400 or 503
    reaches neither the embeddings provider nor the chat model. *)
Theorem X4_unica_llamada_externa g s ev :
  ev ∈ fst (post g s) -> es_llamada_externa ev ->
  ev = BuscaSimilitud (pregunta s) 10 (strip (lower unicode_lower (entidad s))) /\
  is_Some (db g) /\ is_Some (llm g) /\
  strip (lower unicode_lower (entidad s)) <> [].
Proof.
  intros Hin Hext.
  destruct (codificable
              (linea_de_solicitud (strip (lower unicode_lower (entidad s)))
                 (pregunta s))) eqn:Hlin;
    [| rewrite (post_linea_no_codificable _ _ Hlin) in Hin;
       by apply elem_of_nil in Hin].
  rewrite linea_de_solicitud_codificable in Hlin.
  apply andb_true_iff in Hlin as [Hcn Hcq].
  destruct (db g) as [d |] eqn:Hd; [destruct (llm g) as [l |] eqn:Hl |].
  - destruct (strip (lower unicode_lower (entidad s))) as [| c n] eqn:Hn.
    + rewrite eventos_rechazada in Hin
        by (try (right; right; exact Hn); try (rewrite Hn; reflexivity);
            exact Hcq).
      apply list_elem_of_singleton in Hin. subst ev. destruct Hext.
    + assert (Hne : strip (lower unicode_lower (entidad s)) <> [])
        by (rewrite Hn; discriminate).
      unfold post_extraer_contexto in Hin.
      rewrite (extraer_cargado _ _ _ _ _ _ _ _ _ _ Hd Hl Hne) in Hin.
      rewrite Hn in Hin.
      rewrite bind_print in Hin by (apply linea_de_solicitud_ok; assumption).
      cbn [fst eventos] in Hin.
      assert (Hev : forall x, x ∈ eventos
                      (try_except (procesar' d l (pregunta s) (c :: n))
                                  (manejar_excepcion format_exc)) ->
                    es_llamada_externa x ->
                    x = BuscaSimilitud (pregunta s) 10 (c :: n)).
      { intros x Hx Hxe.
        destruct (resultado (buscar d (pregunta s) 10 (c :: n)))
          as [e | [| doc docs]] eqn:Hb.
        - pose proof (procesar_busqueda_falla _ _ _ llm_invoke _ l _ _ _ Hcn Hb)
            as Hp.
          rewrite (try_except_raise _ _ e) in Hx by (rewrite Hp; reflexivity).
          rewrite Hp, manejar_excepcion_eq in Hx. cbn in Hx.
          repeat (apply elem_of_cons in Hx as [-> | Hx]);
            try (apply elem_of_nil in Hx); done.
        - pose proof (procesar_sin_fragmentos _ _ _ llm_invoke _ l _ _ Hcn Hb)
            as Hp.
          rewrite Hp in Hx. cbn in Hx.
          repeat (apply elem_of_cons in Hx as [-> | Hx]);
            try (apply elem_of_nil in Hx); done.
        - pose proof (procesar_con_fragmentos _ _ _ llm_invoke _ l _ _ _ _ Hcn Hb)
            as Hp.
          rewrite (try_except_raise _ _ (NameError (py "prompt_sintesis"))) in Hx
            by (rewrite Hp; reflexivity).
          rewrite Hp, manejar_excepcion_eq in Hx. cbn in Hx.
          repeat (apply elem_of_cons in Hx as [-> | Hx]);
            try (apply elem_of_nil in Hx); done. }
      apply elem_of_cons in Hin as [-> | Hin]; [destruct Hext |].
      repeat split; try (by eexists); try discriminate.
      apply Hev; assumption.
  - rewrite eventos_rechazada in Hin
      by (try (right; left; exact Hl); assumption).
    apply list_elem_of_singleton in Hin. subst ev. destruct Hext.
  - rewrite eventos_rechazada in Hin by (try (left; exact Hd); assumption).
    apply list_elem_of_singleton in Hin. subst ev. destruct Hext.
Qed.

(** X13.  For a request body that validates as [SolicitudContexto], and
    whose normalised entity and question standard output can encode, the
    response is a JSON object with one text field, [contexto] with status
    200 or [detail] with status 400, 500 or 503; or it is the bare 500 of
    the framework, and that only when the [try] block has raised an
    exception whose message cannot be encoded in the JSON body. *)
Theorem X13_forma_de_la_respuesta g s :
  codificable (strip (lower unicode_lower (entidad s))) = true ->
  codificable (pregunta s) = true ->
  (exists texto,
     snd (post g s) = {| status := 200; body := Json [(py "contexto", texto)] |} \/
     exists c, c ∈ [400; 500; 503]%Z /\
       snd (post g s) = {| status := c; body := Json [(py "detail", texto)] |}) \/
  (snd (post g s) = error_del_servidor /\
   exists d l e,
     db g = Some d /\ llm g = Some l /\
     resultado (procesar' d l (pregunta s)
                  (strip (lower unicode_lower (entidad s)))) = inl e /\
     codificable (exn_str e) = false).
Proof.
  intros Hcn Hcq. unfold post_extraer_contexto. cbn [snd].
  destruct (db g) as [d |] eqn:Hd; [destruct (llm g) as [l |] eqn:Hl |].
  - destruct (strip (lower unicode_lower (entidad s))) as [| c n] eqn:Hn.
    + rewrite (extraer_vacia _ _ _ _ _ _ _ _ _ _ Hd Hl Hn Hcq).
      left. eexists. right. exists 400%Z. split; [| reflexivity].
      apply list_elem_of_here.
    + assert (Hne : strip (lower unicode_lower (entidad s)) <> [])
        by (rewrite Hn; discriminate).
      rewrite (extraer_cargado _ _ _ _ _ _ _ _ _ _ Hd Hl Hne). rewrite Hn.
      rewrite bind_print by (apply linea_de_solicitud_ok; assumption).
      cbn [resultado snd].
      destruct (resultado (procesar' d l (pregunta s) (c :: n)))
        as [e | dict] eqn:Hp.
      * rewrite (try_except_raise _ _ _ Hp), manejar_excepcion_eq.
        cbn [resultado snd respuesta_fastapi].
        rewrite !codificable_app.
        replace (codificable (py "Error interno del servidor: ")) with true
          by (vm_compute; reflexivity).
        replace (codificable nl) with true by reflexivity.
        rewrite (texto_codificable (format_exc e)), !andb_true_r, andb_true_l.
        destruct (codificable (exn_str e)) eqn:He.
        -- left. eexists. right. exists 500%Z. split; [| reflexivity].
           apply list_elem_of_further, list_elem_of_here.
        -- right. split; [reflexivity |]. exists d, l, e. done.
      * rewrite (try_except_ret _ _ _ Hp), Hp.
        destruct (resultado (buscar d (pregunta s) 10 (c :: n)))
          as [x | [| doc docs]] eqn:Hb.
        -- rewrite (procesar_busqueda_falla _ _ _ llm_invoke _ l _ _ _ Hcn Hb)
             in Hp.
           discriminate.
        -- rewrite (procesar_sin_fragmentos _ _ _ llm_invoke _ l _ _ Hcn Hb)
             in Hp.
           injection Hp as <-. left. eexists. left.
           cbn [respuesta_fastapi codificable_dict forallb fst snd].
           replace (codificable (py "contexto")) with true
             by (vm_compute; reflexivity).
           rewrite (mensaje_sin_informacion_codificable _ Hcn). reflexivity.
        -- rewrite (procesar_con_fragmentos _ _ _ llm_invoke _ l _ _ _ _ Hcn Hb)
             in Hp.
           discriminate.
  - rewrite extraer_sin_componentes by (assumption || (right; exact Hl)).
    left. eexists. right. exists 503%Z. split; [| reflexivity].
    apply list_elem_of_further, list_elem_of_further, list_elem_of_here.
  - rewrite extraer_sin_componentes by (assumption || (left; exact Hd)).
    left. eexists. right. exists 503%Z. split; [| reflexivity].
    apply list_elem_of_further, list_elem_of_further, list_elem_of_here.
Qed.

(** X15.  A request whose normalised entity or whose question holds a code
    point that standard output cannot encode is answered with the bare 500
    of the framework, whatever the state of the service: the [print] of line
    67 raises before any guard and outside the [try], so that nothing is
    printed, no search is made, and no [detail] is sent. *)
Theorem X15_solicitud_no_codificable g s :
  codificable (strip (lower unicode_lower (entidad s))) = false \/
  codificable (pregunta s) = false ->
  post g s = ([], {| status := 500; body := Texto (py "Internal Server Error") |}) /\
  exists objeto inicio fin,
    resultado (extraer g s) = inl (UnicodeEncodeError objeto inicio fin).
Proof.
  intros H.
  assert (Hlin : codificable
                   (linea_de_solicitud (strip (lower unicode_lower (entidad s)))
                      (pregunta s)) = false).
  { rewrite linea_de_solicitud_codificable.
    destruct H as [-> | ->]; [reflexivity | apply andb_false_r]. }
  split; [exact (post_linea_no_codificable _ _ Hlin) |].
  rewrite (extraer_linea_no_codificable _ _ _ _ _ _ _ _ Hlin).
  eexists _, _, _. reflexivity.
Qed.

End LlamadasDelManejador.

Lemma X4_testigo :
  BuscaSimilitud (py "¿Qué proyectos hay?") 10 (py "loja")
  ∈ fst (post_ejemplo embed_nulo globals_indexado "¿Qué proyectos hay?" " Loja ") /\
  strip (lower id (py " Loja ")) <> [].
Proof.
  assert (Hin : BuscaSimilitud (py "¿Qué proyectos hay?") 10 (py "loja")
                ∈ fst (post_ejemplo embed_nulo globals_indexado
                         "¿Qué proyectos hay?" " Loja ")).
  { vm_compute. apply list_elem_of_further, list_elem_of_further,
      list_elem_of_here. }
  split; [exact Hin |].
  apply (X4_unica_llamada_externa id traza unit embed_nulo distancia_nula
           llm_eco globals_indexado
           (mkSolicitud (py "¿Qué proyectos hay?") (py " Loja "))
           (BuscaSimilitud (py "¿Qué proyectos hay?") 10 (py "loja")) Hin I).
Defined.

Lemma X13_testigo :
  codificable (strip (lower id (py "paltas"))) = true /\
  codificable (py "¿Qué proyectos hay?") = true /\
  snd (post_ejemplo embed_ilegible globals_indexado "¿Qué proyectos hay?" "paltas")
  = error_del_servidor /\
  ((exists texto,
      snd (post_ejemplo embed_caido globals_indexado "¿Qué proyectos hay?" "paltas")
      = {| status := 200; body := Json [(py "contexto", texto)] |} \/
      exists c, c ∈ [400; 500; 503]%Z /\
        snd (post_ejemplo embed_caido globals_indexado "¿Qué proyectos hay?" "paltas")
        = {| status := c; body := Json [(py "detail", texto)] |}) \/
   (snd (post_ejemplo embed_caido globals_indexado "¿Qué proyectos hay?" "paltas")
    = error_del_servidor /\
    exists d l e,
      db globals_indexado = Some d /\ llm globals_indexado = Some l /\
      resultado (procesar unit embed_caido distancia_nula llm_eco d l
                   (py "¿Qué proyectos hay?") (strip (lower id (py "paltas"))))
      = inl e /\
      codificable (exn_str e) = false)).
Proof.
  split; [vm_compute; reflexivity |]. split; [vm_compute; reflexivity |].
  split; [vm_compute; reflexivity |].
  apply (X13_forma_de_la_respuesta id traza unit embed_caido distancia_nula
           llm_eco globals_indexado
           (mkSolicitud (py "¿Qué proyectos hay?") (py "paltas")));
    vm_compute; reflexivity.
Defined.

Lemma X15_testigo :
  codificable (strip (lower id [55296])) = false /\
  post_extraer_contexto id traza unit embed_nulo distancia_nula llm_eco
    globals_iniciales (mkSolicitud (py "¿Qué proyectos hay?") [55296])
  = ([], {| status := 500; body := Texto (py "Internal Server Error") |}).
Proof.
  split; [vm_compute; reflexivity |].
  apply (X15_solicitud_no_codificable id traza unit embed_nulo distancia_nula
           llm_eco globals_iniciales
           (mkSolicitud (py "¿Qué proyectos hay?") [55296])).
  left. vm_compute. reflexivity.
Defined.

(* ===================================================================== *)
(** ** Further properties of the indexer *)
(* ===================================================================== *)

Section ResultadoDelIndexador.

Variable split_text : str -> list str.

Local Abbreviation indexar := (indexar_pdot split_text).
Local Abbreviation fragmentos_de' := (fragmentos_de split_text).
Local Abbreviation fragmentos_del_mapa' := (fragmentos_del_mapa split_text).

Lemma fragmentos_del_mapa_elem mapa w d :
  d ∈ fragmentos_del_mapa' mapa w <->
  exists entrada, entrada ∈ mapa /\ d ∈ fragmentos_de' w entrada.
Proof.
  unfold fragmentos_del_mapa. rewrite list_elem_of_In, in_flat_map.
  split; intros (entrada & H1 & H2); exists entrada;
    split; apply list_elem_of_In; assumption.
Qed.

Lemma fragmentos_de_elem w et arch d :
  d ∈ fragmentos_de' w (et, arch) <->
  exists documentos pag texto,
    pdfs w !! strip arch = Some (inr documentos) /\
    pag ∈ documentos /\ texto ∈ split_text (page_content pag) /\
    d = etiquetar et (strip arch)
          {| page_content := texto; metadata := metadata pag |}.
Proof.
  unfold fragmentos_de. cbn [fst snd].
  destruct (pdfs w !! strip arch) as [[e | documentos] |].
  - split; [intros H; by apply elem_of_nil in H |].
    intros (? & ? & ? & [=] & _).
  - rewrite list_elem_of_In, in_map_iff. unfold split_documents. split.
    + intros (frag & <- & Hfrag). apply in_flat_map in Hfrag as (pag & Hpag & Hin).
      apply in_map_iff in Hin as (texto & <- & Htexto).
      exists documentos, pag, texto.
      repeat split; try apply list_elem_of_In; assumption.
    + intros (docs' & pag & texto & [= <-] & Hpag & Htexto & ->).
      eexists. split; [reflexivity |].
      apply in_flat_map. exists pag. split; [by apply list_elem_of_In |].
      apply in_map_iff. exists texto. split; [reflexivity |].
      by apply list_elem_of_In.
  - split; [intros H; by apply elem_of_nil in H |].
    intros (? & ? & ? & [=] & _).
Qed.

(** X5.  A run with the embeddings key set that no uncaught exception ends
    collects, in the order of the table, the tagged chunks of the entries
    whose file loads; it runs to its last line exactly when there is at
    least one, and then the store directory holds these chunks and no
    other; otherwise it leaves no store directory. *)
Theorem X5_resultado_de_la_indexacion env w :
  getenv_truthy env (py "GOOGLE_API_KEY") = true ->
  sin_excepcion (snd (indexar env w)) ->
  let r := indexar env w in
  let frags := flat_map (fragmentos_de' w) MAPA_DE_PDOTS in
  todos_los_fragmentos (fst r) = frags /\
  (snd r = Completado <-> frags <> []) /\
  directorios (mundo (fst r)) !! DIRECTORIO_PERSISTENTE
  = match frags with [] => None | _ :: _ => Some frags end.
Proof.
  intros Hk Hs. cbv zeta. unfold indexar_pdot in *.
  pose proof (sin_excepcion_primer split_text _ _ _ Hk Hs) as Hp.
  destruct (indexar_resultado split_text MAPA_DE_PDOTS env w Hk Hp)
    as (Ht & Hf & Hm).
  unfold fragmentos_del_mapa in *. rewrite Ht, Hf, Hm. cbn [directorios].
  destruct (flat_map (fragmentos_de' w) MAPA_DE_PDOTS) as [| f fs].
  - rewrite lookup_delete_eq. split; [reflexivity |]. split; [| reflexivity].
    split; [discriminate | done].
  - rewrite lookup_insert_eq. split; [reflexivity |]. split; [| reflexivity].
    split; [discriminate | reflexivity].
Qed.

(** X6.  After a run with the embeddings key set, a chunk is in the store
    exactly when it is a piece the splitter cut from a page of a file of the
    table that loaded, carrying that page's metadata with ["fuente"] set to
    the entry's label and ["archivo_origen"] to its stripped file name. *)
Theorem X6_procedencia_de_los_fragmentos env w chunks d :
  getenv_truthy env (py "GOOGLE_API_KEY") = true ->
  directorios (mundo (fst (indexar env w))) !! DIRECTORIO_PERSISTENTE
  = Some chunks ->
  (d ∈ chunks <->
   exists et arch documentos pag texto,
     (et, arch) ∈ MAPA_DE_PDOTS /\
     pdfs w !! strip arch = Some (inr documentos) /\
     pag ∈ documentos /\ texto ∈ split_text (page_content pag) /\
     page_content d = texto /\
     metadata d = <[py "archivo_origen" := MStr (strip arch)]>
                    (<[py "fuente" := MStr et]> (metadata pag))).
Proof.
  intros Hk Hdir. unfold indexar_pdot in Hdir.
  destruct (almacen_tras_indexar split_text MAPA_DE_PDOTS env w chunks Hk Hdir)
    as (_ & Hc).
  rewrite Hc, fragmentos_del_mapa_elem. split.
  - intros ([et arch] & Hin & Hd).
    apply fragmentos_de_elem in Hd as (documentos & pag & texto & H1 & H2 & H3 & ->).
    exists et, arch, documentos, pag, texto. repeat split; assumption.
  - intros (et & arch & documentos & pag & texto & Hin & H1 & H2 & H3 & H4 & H5).
    exists (et, arch). split; [exact Hin |].
    apply fragmentos_de_elem. exists documentos, pag, texto.
    repeat split; try assumption.
    destruct d as [pc md]. cbn in H4, H5. subst. reflexivity.
Qed.

(** X7.  Whatever the environment, a run leaves every PDF file as it was and
    touches no directory other than its store directory. *)
Theorem X7_indexar_no_toca_lo_demas env w :
  pdfs (mundo (fst (indexar env w))) = pdfs w /\
  forall dir, dir <> DIRECTORIO_PERSISTENTE ->
    directorios (mundo (fst (indexar env w))) !! dir = directorios w !! dir.
Proof.
  unfold indexar_pdot.
  destruct (getenv_truthy env (py "GOOGLE_API_KEY")) eqn:Hk.
  - destruct (primer_tropiezo split_text w MAPA_DE_PDOTS) as [e |] eqn:Hp.
    + destruct (indexar_tropiezo split_text MAPA_DE_PDOTS env w e Hk Hp)
        as (_ & -> & _).
      split; [reflexivity |]. intros dir Hdir. cbn [directorios rmtree].
      apply lookup_delete_ne. congruence.
    + destruct (indexar_resultado split_text MAPA_DE_PDOTS env w Hk Hp)
        as (_ & _ & ->).
      split; [reflexivity |]. intros dir Hdir. cbn [directorios].
      destruct (fragmentos_del_mapa' MAPA_DE_PDOTS w).
      * apply lookup_delete_ne. congruence.
      * apply lookup_insert_ne. congruence.
  - rewrite (indexar_sin_clave _ _ _ _ Hk). split; [reflexivity |]. done.
Qed.

(** X8.  White space around a file name of the table plays no part in which
    file a turn of the loop loads nor in the chunks it adds: the turn for the
    padded name differs from the turn for the bare name in its first printed
    line only, which shows the name as written. *)
Theorem X8_nombre_de_archivo_con_espacios s et l arch r :
  solo_espacios l -> solo_espacios r ->
  todos_los_fragmentos (procesar_pdf split_text s (et, l ++ arch ++ r))
  = todos_los_fragmentos (procesar_pdf split_text s (et, arch)) /\
  mundo (procesar_pdf split_text s (et, l ++ arch ++ r)) = mundo s /\
  exists resto,
    salida (procesar_pdf split_text s (et, l ++ arch ++ r))
    = salida s ++ cabecera (et, l ++ arch ++ r) :: resto /\
    salida (procesar_pdf split_text s (et, arch))
    = salida s ++ cabecera (et, arch) :: resto.
Proof.
  intros Hl Hr. rewrite !procesar_pdf_eq. cbn [todos_los_fragmentos mundo salida].
  unfold fragmentos_de. cbn [fst snd].
  rewrite (strip_rodeado l arch r Hl Hr).
  split; [reflexivity |]. split; [reflexivity |].
  unfold eventos_de, procesar_pdf, emite, interrumpe. cbn.
  rewrite (strip_rodeado l arch r Hl Hr), !existe_eq.
  destruct (pdfs (mundo s) !! strip arch) as [[e | documentos] |]; cbn.
  - destruct (codificable _); eexists; split; reflexivity.
  - eexists; split; reflexivity.
  - destruct (bool_decide _); eexists; split; reflexivity.
Qed.

Lemma eventos_de_sin_borrado w entrada ruta :
  BorraArbol ruta ∉ eventos_de split_text w entrada.
Proof.
  destruct entrada as [et arch].
  unfold eventos_de, procesar_pdf, emite, interrumpe. cbn. rewrite !existe_eq.
  destruct (pdfs w !! strip arch) as [[e | documentos] |]; cbn.
  - destruct (codificable _); cbn; no_en_lista.
  - no_en_lista.
  - destruct (bool_decide _); cbn; no_en_lista.
Qed.

(** What a run with the key prints and calls after FASE 0 holds no
    [rmtree]. *)
Lemma indexar_salida_tras_fase0 env w :
  getenv_truthy env (py "GOOGLE_API_KEY") = true ->
  exists resto,
    salida (fst (indexar env w)) = salida (fase0 (estado_inicial w)) ++ resto /\
    forall ruta, BorraArbol ruta ∉ resto.
Proof.
  intros Hk. unfold indexar_pdot.
  destruct (indexar_salida split_text MAPA_DE_PDOTS env w Hk)
    as (cola & -> & _ & Hcola & _).
  eexists. split; [reflexivity |].
  intros ruta. rewrite !elem_of_app, list_elem_of_singleton.
  intros [H | [H | H]]; [discriminate | | exact (Hcola _ H)].
  apply list_elem_of_In, in_flat_map in H as (entrada & _ & Hin).
  apply list_elem_of_In in Hin. exact (eventos_de_sin_borrado _ _ _ Hin).
Qed.

(** X14.  The run calls [rmtree] only on its store directory, only past the
    check of the embeddings key, and only when that directory exists; and
    whenever these hold it does call it. *)
Theorem X14_rmtree_solo_si_existe env w ruta :
  BorraArbol ruta ∈ salida (fst (indexar env w)) <->
  getenv_truthy env (py "GOOGLE_API_KEY") = true /\
  is_Some (directorios w !! DIRECTORIO_PERSISTENTE) /\
  ruta = DIRECTORIO_PERSISTENTE.
Proof.
  destruct (getenv_truthy env (py "GOOGLE_API_KEY")) eqn:Hk.
  - destruct (indexar_salida_tras_fase0 env w Hk) as (resto & -> & Hresto).
    rewrite elem_of_app. unfold fase0. cbn [mundo estado_inicial].
    destruct (directorios w !! DIRECTORIO_PERSISTENTE) as [chunks |] eqn:Hdir.
    + cbn. split.
      * intros [H | H]; [| destruct (Hresto _ H)].
        repeat split; [by eexists |]. revert H.
        rewrite !elem_of_cons, elem_of_nil.
        intros [H | [H | [H | [H | [H | [H | H]]]]]]; try discriminate;
          try contradiction.
        congruence.
      * intros (_ & _ & ->). left.
        do 4 apply list_elem_of_further. apply list_elem_of_here.
    + cbn. split.
      * intros [H | H]; [| destruct (Hresto _ H)].
        revert H. no_en_lista.
      * intros (_ & [x Hx] & _). discriminate.
  - unfold indexar_pdot. rewrite (indexar_sin_clave _ _ _ _ Hk). cbn. split.
    + no_en_lista.
    + intros (H & _). discriminate.
Qed.

(** X16.  The loader is built outside the [try] that guards the load: in a
    run with the embeddings key set, the first path of the table that exists
    without being a regular file (a directory, say) ends the script with
    the [ValueError] of the loader's constructor, right after the line that
    announces the load.  The old store has been removed by then, the chunks
    of the entries before it are dropped, and no store is written. *)
Theorem X16_ruta_que_no_es_archivo env w pre et arch post :
  getenv_truthy env (py "GOOGLE_API_KEY") = true ->
  MAPA_DE_PDOTS = pre ++ (et, arch) :: post ->
  sin_tropiezos w pre ->
  pdfs w !! strip arch = None ->
  strip arch ∈ no_archivos w ->
  let r := indexar env w in
  snd r = Excepcion (ValueError (py "File path " ++ strip arch
                                 ++ py " is not a valid file or url")) /\
  todos_los_fragmentos (fst r) = fragmentos_del_mapa' pre w /\
  directorios (mundo (fst r)) !! DIRECTORIO_PERSISTENTE = None /\
  last (salida (fst r))
  = Some (Imprime (py "    Cargando archivo: " ++ strip arch ++ py "...")).
Proof.
  intros Hk Hmapa Hpre Hp Hn. cbv zeta. unfold indexar_pdot. rewrite Hmapa.
  pose proof (sin_tropiezos_primer split_text _ _ Hpre) as Hpre'.
  assert (Ht : tropiezo split_text w (et, arch)
               = Some (ValueError (py "File path " ++ strip arch
                                   ++ py " is not a valid file or url"))).
  { rewrite tropiezo_eq, Hp, bool_decide_eq_true_2 by exact Hn. reflexivity. }
  assert (Hprimer : primer_tropiezo split_text w (pre ++ (et, arch) :: post)
                    = Some (ValueError (py "File path " ++ strip arch
                                        ++ py " is not a valid file or url"))).
  { rewrite (primer_tropiezo_app _ _ _ _ Hpre'). cbn. rewrite Ht. reflexivity. }
  assert (Hrec : recorridas split_text w (pre ++ (et, arch) :: post)
                 = pre ++ [(et, arch)]).
  { rewrite (recorridas_app _ _ _ _ Hpre'). cbn. rewrite Ht. reflexivity. }
  destruct (indexar_tropiezo split_text _ env w _ Hk Hprimer)
    as (Hs & Hm & Htodos).
  split; [exact Hs |]. split; [| split].
  - rewrite Htodos, Hrec, flat_map_app. cbn [flat_map].
    unfold fragmentos_de at 2. cbn [snd]. rewrite Hp, !app_nil_r. reflexivity.
  - rewrite Hm. cbn [directorios rmtree]. apply lookup_delete_eq.
  - destruct (indexar_salida split_text (pre ++ (et, arch) :: post) env w Hk)
      as (cola & -> & _ & _ & Hcola).
    rewrite (Hcola _ Hprimer), Hrec, flat_map_app. cbn [flat_map].
    rewrite (eventos_de_no_archivo _ _ _ _ Hp Hn), !app_nil_r.
    rewrite !app_assoc.
    rewrite (app_assoc _ [cabecera (et, arch); ConsultaRuta (strip arch) true]
               [Imprime (py "    Cargando archivo: " ++ strip arch ++ py "...")]
             : _ ++ [cabecera (et, arch); ConsultaRuta (strip arch) true;
                     Imprime (py "    Cargando archivo: " ++ strip arch
                              ++ py "...")] = _).
    apply last_snoc.
Qed.


End ResultadoDelIndexador.

Lemma X5_testigo :
  getenv_truthy env_completo (py "GOOGLE_API_KEY") = true /\
  sin_excepcion
    (snd (indexar_pdot un_fragmento env_completo mundo_almacen_antiguo)) /\
  snd (indexar_pdot un_fragmento env_completo mundo_almacen_antiguo) = Completado /\
  directorios (mundo (fst (indexar_pdot un_fragmento env_completo
                             mundo_almacen_antiguo)))
  !! DIRECTORIO_PERSISTENTE
  = Some [etiquetar (py "paltas") (py "PDOT_Paltas.pdf")
            (pagina "PDOT_Paltas.pdf" "Plan de desarrollo de Paltas" 0)].
Proof.
  split; [vm_compute; reflexivity |]. split; [vm_compute; exact I |].
  destruct (X5_resultado_de_la_indexacion un_fragmento env_completo
              mundo_almacen_antiguo) as (_ & H2 & H3);
    [vm_compute; reflexivity | vm_compute; exact I |].
  split.
  - apply H2. vm_compute. discriminate.
  - rewrite H3. vm_compute. reflexivity.
Defined.

Lemma X6_testigo :
  getenv_truthy env_completo (py "GOOGLE_API_KEY") = true /\
  etiquetar (py "paltas") (py "PDOT_Paltas.pdf")
    (pagina "PDOT_Paltas.pdf" "Plan de desarrollo de Paltas" 0)
  ∈ default [] (directorios mundo_indexado !! DIRECTORIO_PERSISTENTE).
Proof.
  split; [vm_compute; reflexivity |].
  apply (X6_procedencia_de_los_fragmentos un_fragmento env_completo mundo_paltas
           (default [] (directorios mundo_indexado !! DIRECTORIO_PERSISTENTE)));
    [vm_compute; reflexivity | vm_compute; reflexivity |].
  exists (py "paltas"), (py "PDOT_Paltas.pdf"),
    [pagina "PDOT_Paltas.pdf" "Plan de desarrollo de Paltas" 0],
    (pagina "PDOT_Paltas.pdf" "Plan de desarrollo de Paltas" 0),
    (py "Plan de desarrollo de Paltas").
  repeat split; try (vm_compute; reflexivity);
    vm_compute; apply list_elem_of_here.
Defined.

Lemma X8_testigo :
  solo_espacios (py " ") /\
  todos_los_fragmentos
    (procesar_pdf un_fragmento (estado_inicial mundo_paltas)
       (py "paltas", py " PDOT_Paltas.pdf "))
  = todos_los_fragmentos
      (procesar_pdf un_fragmento (estado_inicial mundo_paltas)
         (py "paltas", py "PDOT_Paltas.pdf")).
Proof.
  assert (He : solo_espacios (py " ")) by (vm_compute; repeat constructor).
  split; [exact He |].
  apply (X8_nombre_de_archivo_con_espacios un_fragmento
           (estado_inicial mundo_paltas) (py "paltas") (py " ")
           (py "PDOT_Paltas.pdf") (py " ") He He).
Defined.

Lemma X16_testigo :
  getenv_truthy env_completo (py "GOOGLE_API_KEY") = true /\
  sin_tropiezos mundo_con_carpeta [(py "paltas", py "PDOT_Paltas.pdf")] /\
  pdfs mundo_con_carpeta !! strip (py "PDOT_Pindal.pdf") = None /\
  (strip (py "PDOT_Pindal.pdf") ∈ no_archivos mundo_con_carpeta) /\
  snd (indexar_pdot un_fragmento env_completo mundo_con_carpeta)
  = Excepcion (ValueError (py "File path PDOT_Pindal.pdf is not a valid file or url")) /\
  directorios (mundo (fst (indexar_pdot un_fragmento env_completo
                             mundo_con_carpeta)))
  !! DIRECTORIO_PERSISTENTE = None.
Proof.
  assert (Hs : sin_tropiezos mundo_con_carpeta
                 [(py "paltas", py "PDOT_Paltas.pdf")]).
  { intros entrada Hin. apply list_elem_of_singleton in Hin. subst entrada.
    split; [vm_compute; discriminate | intros e; vm_compute; discriminate]. }
  assert (Hp : pdfs mundo_con_carpeta !! strip (py "PDOT_Pindal.pdf") = None)
    by (vm_compute; reflexivity).
  assert (Hn : strip (py "PDOT_Pindal.pdf") ∈ no_archivos mundo_con_carpeta)
    by (apply (bool_decide_eq_true_1 _); vm_compute; reflexivity).
  split; [vm_compute; reflexivity |]. split; [exact Hs |].
  split; [exact Hp |]. split; [exact Hn |].
  destruct (X16_ruta_que_no_es_archivo un_fragmento env_completo
              mundo_con_carpeta [(py "paltas", py "PDOT_Paltas.pdf")]
              (py "pindal") (py "PDOT_Pindal.pdf")
              [ (py "catamayo", py "PDyOT_Catamayo.pdf");
                (py "chaguarpamba", py "PDyOT_Chaguarpamba.pdf") ]
              eq_refl eq_refl Hs Hp Hn)
    as (H1 & _ & H3 & _).
  split; [rewrite H1; vm_compute; reflexivity | exact H3].
Defined.


(* ===================================================================== *)
(** ** The indexer and the service together *)
(* ===================================================================== *)

Section IndexarYServir.

Variable split_text : str -> list str.
Variable format_exc : Exn -> Imprimible.
Variable Embedding : Type.
Variable embed_query : GoogleGenerativeAIEmbeddings -> str -> Exn + Embedding.
Variable distancia : Embedding -> str -> N.

Local Abbreviation indexar := (indexar_pdot split_text).
Local Abbreviation fragmentos_de' := (fragmentos_de split_text).
Local Abbreviation fragmentos_del_mapa' := (fragmentos_del_mapa split_text).
Local Abbreviation buscar := (similarity_search Embedding embed_query distancia).

(** X9.  With both keys set, after an indexer run that reaches its last
    line the service starts on the disk the run left, and the store it
    serves holds exactly the chunks the run collected, at least one. *)
Theorem X9_tras_indexar_el_servicio_arranca env w :
  getenv_truthy env (py "GOOGLE_API_KEY") = true ->
  getenv_truthy env (py "OPENAI_API_KEY") = true ->
  snd (indexar env w) = Completado ->
  exists g d,
    en_servicio format_exc env (mundo (fst (indexar env w))) g /\
    db g = Some d /\
    coleccion d = todos_los_fragmentos (fst (indexar env w)) /\
    coleccion d <> [].
Proof.
  intros Hg Ho Hc. unfold indexar_pdot in *.
  assert (Hp : primer_tropiezo split_text w MAPA_DE_PDOTS = None).
  { apply (sin_excepcion_primer split_text _ env); [exact Hg |].
    rewrite Hc. exact I. }
  revert Hc.
  destruct (indexar_resultado split_text MAPA_DE_PDOTS env w Hg Hp)
    as (Ht & Hs & Hm).
  rewrite Hs, Ht. intros Hc.
  destruct (fragmentos_del_mapa' MAPA_DE_PDOTS w) as [| f fs] eqn:Hf;
    [discriminate |].
  assert (Hdir : directorios (mundo (fst (indexar_con split_text MAPA_DE_PDOTS
                                            env w)))
                 !! DIRECTORIO_DB = Some (f :: fs)).
  { rewrite Hm. cbn [directorios]. apply lookup_insert_eq. }
  eexists _, _. unfold en_servicio.
  rewrite (startup_con_directorio format_exc _ _ _ Hg Ho Hdir).
  repeat split. discriminate.
Qed.

(** X10.  With both keys set, after an indexer run that found no chunk and
    called [exit()], the service does not start: the run has removed the
    store directory, and the start raises [FileNotFoundError], whatever
    store was on disk before the run. *)
Theorem X10_tras_indexar_sin_documentos_no_arranca env w :
  getenv_truthy env (py "GOOGLE_API_KEY") = true ->
  getenv_truthy env (py "OPENAI_API_KEY") = true ->
  snd (indexar env w) = Salida ->
  resultado (startup_event format_exc env (mundo (fst (indexar env w)))) =
  inl (FileNotFoundError
         (py "!!! ERROR FATAL: No se encuentra el directorio '" ++ DIRECTORIO_DB
          ++ py "'. ¿Olvidaste subir la base de datos?")).
Proof.
  intros Hg Ho Hsal. unfold indexar_pdot in *.
  assert (Hp : primer_tropiezo split_text w MAPA_DE_PDOTS = None).
  { apply (sin_excepcion_primer split_text _ env); [exact Hg |].
    rewrite Hsal. exact I. }
  revert Hsal.
  destruct (indexar_resultado split_text MAPA_DE_PDOTS env w Hg Hp)
    as (_ & Hs & Hm).
  rewrite Hs. intros Hsal.
  destruct (fragmentos_del_mapa' MAPA_DE_PDOTS w) as [| f fs] eqn:Hf;
    [| discriminate].
  assert (Hdir : directorios (mundo (fst (indexar_con split_text MAPA_DE_PDOTS
                                            env w)))
                 !! DIRECTORIO_DB = None).
  { rewrite Hm. cbn [directorios]. apply lookup_delete_eq. }
  rewrite (startup_sin_directorio format_exc _ _ Hg Ho Hdir). reflexivity.
Qed.

(** Ranking reorders the chunks, it neither drops nor adds any. *)
Lemma insertar_perm v d l :
  insertar Embedding distancia v d l ≡ₚ d :: l.
Proof.
  induction l as [| x l IH]; cbn; [reflexivity |].
  destruct (distancia v (page_content d) <? distancia v (page_content x));
    [reflexivity |].
  rewrite IH. apply Permutation_swap.
Qed.

Lemma ordenar_perm v l : ordenar Embedding distancia v l ≡ₚ l.
Proof.
  unfold ordenar. induction l as [| x l IH]; cbn; [reflexivity |].
  rewrite insertar_perm, IH. reflexivity.
Qed.

Lemma filter_todos {A} (P : A -> Prop) `{forall x, Decision (P x)} (l : list A) :
  Forall P l -> filter P l = l.
Proof.
  induction 1 as [| x l Hx _ IH]; [reflexivity |].
  rewrite filter_cons_True by exact Hx. rewrite IH. reflexivity.
Qed.

Lemma filter_ninguno {A} (P : A -> Prop) `{forall x, Decision (P x)} (l : list A) :
  Forall (fun x => ~ P x) l -> filter P l = [].
Proof.
  induction 1 as [| x l Hx _ IH]; [reflexivity |].
  rewrite filter_cons_False by exact Hx. exact IH.
Qed.

Lemma filtro_otra_etiqueta w et entrada :
  fst entrada <> et -> filter (coincide et) (fragmentos_de' w entrada) = [].
Proof.
  intros Hne. apply filter_ninguno.
  eapply Forall_impl; [apply fragmentos_de_etiquetados |].
  intros d Hd. unfold coincide. rewrite Hd. intros [= H]. exact (Hne H).
Qed.

(** In a table with no repeated label, the filter on a label keeps the
    chunks of that label's entry and nothing else. *)
Lemma filtro_por_etiqueta mapa w et arch :
  NoDup (map fst mapa) -> (et, arch) ∈ mapa ->
  filter (coincide et) (fragmentos_del_mapa' mapa w) = fragmentos_de' w (et, arch).
Proof.
  unfold fragmentos_del_mapa.
  induction mapa as [| [et' arch'] mapa IH]; intros Hnd Hin.
  - by apply elem_of_nil in Hin.
  - cbn [map fst] in Hnd. apply NoDup_cons in Hnd as [Hnotin Hnd].
    cbn [flat_map]. rewrite filter_app.
    apply elem_of_cons in Hin as [[= <- <-] | Hin].
    + rewrite filter_todos.
      * rewrite filter_ninguno; [apply app_nil_r |].
        apply Forall_forall. intros d Hd.
        apply (fragmentos_del_mapa_elem split_text mapa w d) in Hd
          as ([et2 arch2] & Hin2 & Hd2).
        pose proof (fragmentos_de_etiquetados split_text w (et2, arch2)) as Hf.
        rewrite Forall_forall in Hf.
        unfold coincide. rewrite (Hf d Hd2).
        cbn [fst]. intros [= ->]. apply Hnotin.
        apply list_elem_of_In, in_map_iff. exists (et, arch2).
        split; [reflexivity | by apply list_elem_of_In].
      * apply (fragmentos_de_etiquetados split_text w (et, arch)).
    + rewrite filtro_otra_etiqueta.
      * cbn [app]. apply IH; assumption.
      * cbn [fst]. intros ->. apply Hnotin.
        apply list_elem_of_In, in_map_iff. exists (et, arch).
        split; [reflexivity | by apply list_elem_of_In].
Qed.

Lemma etiquetas_sin_repetir : NoDup (map fst MAPA_DE_PDOTS).
Proof. apply (bool_decide_eq_true_1 _). vm_compute. reflexivity. Qed.

(** X11.  On a store written by a run with the embeddings key set, the
    search filtered on a label of the table returns at most ten chunks, all
    of them chunks of that label's own file, and returns none exactly when
    that file gave none: chunks of another entity never reach the answer. *)
Theorem X11_busqueda_aislada_por_etiqueta env w et arch d q docs :
  getenv_truthy env (py "GOOGLE_API_KEY") = true ->
  (et, arch) ∈ MAPA_DE_PDOTS ->
  directorios (mundo (fst (indexar env w))) !! DIRECTORIO_PERSISTENTE
  = Some (coleccion d) ->
  resultado (buscar d q 10 et) = inr docs ->
  (length docs <= 10)%nat /\
  (forall doc, doc ∈ docs -> doc ∈ fragmentos_de' w (et, arch)) /\
  (docs = [] <-> fragmentos_de' w (et, arch) = []).
Proof.
  intros Hk Hin Hdir Hb. unfold indexar_pdot in Hdir.
  destruct (almacen_tras_indexar split_text MAPA_DE_PDOTS env w _ Hk Hdir)
    as (_ & Hc).
  unfold similarity_search, resultado in Hb. cbn [snd] in Hb.
  destruct (embed_query (embedding_function d) q) as [e | v]; [discriminate |].
  injection Hb as <-.
  rewrite Hc, (filtro_por_etiqueta _ _ _ _ etiquetas_sin_repetir Hin).
  split; [rewrite length_take; lia |]. split.
  - intros doc Hdoc. apply subseteq_take in Hdoc.
    by rewrite ordenar_perm in Hdoc.
  - pose proof (Permutation_length (ordenar_perm v (fragmentos_de' w (et, arch))))
      as Hlen.
    split.
    + intros Ht. apply take_nil_inv in Ht as [Ht | Ht]; [discriminate |].
      rewrite Ht in Hlen. symmetry in Hlen. by apply nil_length_inv in Hlen.
    + intros Hf. rewrite Hf in *.
      apply nil_length_inv in Hlen. rewrite Hlen. reflexivity.
Qed.

End IndexarYServir.

Lemma X9_testigo :
  snd (indexar_pdot un_fragmento env_completo mundo_paltas) = Completado /\
  exists g d,
    en_servicio traza env_completo
      (mundo (fst (indexar_pdot un_fragmento env_completo mundo_paltas))) g /\
    db g = Some d /\
    coleccion d
    = todos_los_fragmentos (fst (indexar_pdot un_fragmento env_completo mundo_paltas)) /\
    coleccion d <> [].
Proof.
  split; [vm_compute; reflexivity |].
  apply (X9_tras_indexar_el_servicio_arranca un_fragmento traza env_completo
           mundo_paltas); vm_compute; reflexivity.
Defined.

Lemma X10_testigo :
  snd (indexar_pdot un_fragmento env_completo mundo_sin_pdfs) = Salida /\
  resultado (startup_event traza env_completo
               (mundo (fst (indexar_pdot un_fragmento env_completo mundo_sin_pdfs)))) =
  inl (FileNotFoundError
         (py "!!! ERROR FATAL: No se encuentra el directorio '" ++ DIRECTORIO_DB
          ++ py "'. ¿Olvidaste subir la base de datos?")).
Proof.
  split; [vm_compute; reflexivity |].
  apply (X10_tras_indexar_sin_documentos_no_arranca un_fragmento traza
           env_completo mundo_sin_pdfs); vm_compute; reflexivity.
Defined.

Lemma X11_testigo :
  (py "paltas", py "PDOT_Paltas.pdf") ∈ MAPA_DE_PDOTS /\
  (forall doc,
     doc ∈ take 10 (ordenar unit distancia_nula tt
                      (filter (coincide (py "paltas")) (coleccion chroma_indexado))) ->
     doc ∈ fragmentos_de un_fragmento mundo_paltas (py "paltas", py "PDOT_Paltas.pdf")).
Proof.
  assert (Hin : (py "paltas", py "PDOT_Paltas.pdf") ∈ MAPA_DE_PDOTS)
    by apply list_elem_of_here.
  split; [exact Hin |].
  apply (X11_busqueda_aislada_por_etiqueta un_fragmento unit embed_nulo
           distancia_nula env_completo mundo_paltas (py "paltas")
           (py "PDOT_Paltas.pdf") chroma_indexado (py "¿Qué proyectos hay?"));
    [vm_compute; reflexivity | exact Hin | vm_compute; reflexivity | reflexivity].
Defined.

(* ===================================================================== *)
(** ** The normal form of an entity *)
(* ===================================================================== *)

Lemma lstrip_cabeza s c r : lstrip s = c :: r -> isspace c = false.
Proof.
  induction s as [| x s IH]; [discriminate |].
  simpl. destruct (isspace x) eqn:Hx; [exact IH |].
  intros [= <- _]. exact Hx.
Qed.

Lemma lstrip_descompone s :
  exists ws, s = ws ++ lstrip s /\ solo_espacios ws.
Proof.
  induction s as [| x s (ws & Hs & Hws)]; [exists []; split; [done | constructor] |].
  simpl. destruct (isspace x) eqn:Hx.
  - exists (x :: ws). split; [simpl; congruence | by constructor].
  - exists []. split; [reflexivity | constructor].
Qed.

Lemma rstrip_descompone s :
  exists ws, s = rstrip s ++ ws /\ solo_espacios ws.
Proof.
  unfold rstrip. destruct (lstrip_descompone (rev s)) as (ws & Hs & Hws).
  exists (rev ws). split; [| by apply solo_espacios_rev].
  rewrite <- rev_app_distr, <- Hs, rev_involutive. reflexivity.
Qed.

(** [strip] takes white space off the two ends, and nothing else. *)
Lemma strip_descompone s :
  exists l r, s = l ++ strip s ++ r /\ solo_espacios l /\ solo_espacios r.
Proof.
  destruct (lstrip_descompone s) as (l & Hl & Hwl).
  destruct (rstrip_descompone (lstrip s)) as (r & Hr & Hwr).
  exists l, r. unfold strip. rewrite <- Hr, <- Hl. done.
Qed.

Lemma strip_cabeza s c r : strip s = c :: r -> isspace c = false.
Proof.
  intros H. destruct (rstrip_descompone (lstrip s)) as (ws & Hs & _).
  unfold strip in H. rewrite H in Hs. apply (lstrip_cabeza s c (r ++ ws)), Hs.
Qed.

Lemma strip_cola s r c : strip s = r ++ [c] -> isspace c = false.
Proof.
  unfold strip, rstrip. intros H.
  apply (f_equal (@rev N)) in H. rewrite rev_involutive, rev_unit in H.
  exact (lstrip_cabeza _ _ _ H).
Qed.

Lemma lstrip_fijo s :
  (forall c r, s = c :: r -> isspace c = false) -> lstrip s = s.
Proof.
  destruct s as [| c r]; [reflexivity |].
  intros H. simpl. rewrite (H c r eq_refl). reflexivity.
Qed.

(** A string with no white space at either end is its own [strip]. *)
Lemma strip_fijo s :
  (forall c r, s = c :: r -> isspace c = false) ->
  (forall r c, s = r ++ [c] -> isspace c = false) ->
  strip s = s.
Proof.
  intros Hc Hl. unfold strip, rstrip. rewrite (lstrip_fijo s Hc).
  rewrite lstrip_fijo; [apply rev_involutive |].
  intros c r Hrev. apply (Hl (rev r) c).
  rewrite <- (rev_involutive s), Hrev. reflexivity.
Qed.

Lemma ascii_lower_idempotente c : ascii_lower (ascii_lower c) = ascii_lower c.
Proof.
  unfold ascii_lower.
  destruct ((65 <=? c) && (c <=? 90)) eqn:Hc; [| rewrite Hc; reflexivity].
  rewrite andb_true_iff, !N.leb_le in Hc.
  destruct ((65 <=? c + 32) && (c + 32 <=? 90)) eqn:Hc'; [| reflexivity].
  rewrite andb_true_iff, !N.leb_le in Hc'. lia.
Qed.

Lemma ascii_lower_sin_mayuscula c :
  ((65 <=? ascii_lower c) && (ascii_lower c <=? 90)) = false.
Proof.
  unfold ascii_lower.
  destruct ((65 <=? c) && (c <=? 90)) eqn:Hc; [| exact Hc].
  rewrite andb_true_iff, !N.leb_le in Hc.
  apply andb_false_iff. right. apply N.leb_gt. lia.
Qed.

Lemma ascii_lower_ascii c :
  (c <? 128) = true -> (ascii_lower c <? 128) = true.
Proof.
  unfold ascii_lower. intros H.
  destruct ((65 <=? c) && (c <=? 90)) eqn:Hc; [| exact H].
  rewrite andb_true_iff, !N.leb_le in Hc. apply N.ltb_lt. lia.
Qed.

(** X12.  The entity that reaches the filter and the messages, that is the
    stripped lowercase of the one sent, has no white space at either end.
    For an ASCII entity it has moreover no capital letter, and normalising
    it again gives it back: what the service prints as the entity is what a
    client can send to get the same treatment. *)
Theorem X12_forma_normal_de_la_entidad unicode_lower e :
  (forall c r, strip (lower unicode_lower e) = c :: r -> isspace c = false) /\
  (forall r c, strip (lower unicode_lower e) = r ++ [c] -> isspace c = false) /\
  (isascii e = true ->
   Forall (fun c => ((65 <=? c) && (c <=? 90)) = false)
          (strip (lower unicode_lower e)) /\
   strip (lower unicode_lower (strip (lower unicode_lower e)))
   = strip (lower unicode_lower e)).
Proof.
  split; [intros c r; apply strip_cabeza |].
  split; [intros r c; apply strip_cola |].
  intros Ha. rewrite (lower_ascii _ _ Ha).
  destruct (strip_descompone (map ascii_lower e)) as (l & r & Hd & _ & _).
  set (n := strip (map ascii_lower e)) in *.
  assert (Hall : Forall (fun c => ascii_lower c = c /\ (c <? 128) = true /\
                                  ((65 <=? c) && (c <=? 90)) = false) n).
  { assert (H : Forall (fun c => ascii_lower c = c /\ (c <? 128) = true /\
                                 ((65 <=? c) && (c <=? 90)) = false)
                       (map ascii_lower e)).
    { apply Forall_forall. intros c Hc. apply list_elem_of_In in Hc.
      apply in_map_iff in Hc as (x & <- & Hx).
      unfold isascii in Ha. rewrite forallb_forall in Ha.
      split; [apply ascii_lower_idempotente |].
      split; [apply ascii_lower_ascii, Ha, Hx | apply ascii_lower_sin_mayuscula]. }
    rewrite Hd in H. apply Forall_app in H as [_ H].
    apply Forall_app in H as [H _]. exact H. }
  split.
  - eapply Forall_impl; [exact Hall |]. intros c (_ & _ & H). exact H.
  - assert (Han : isascii n = true).
    { unfold isascii. apply forallb_forall. intros c Hc.
      rewrite Forall_forall in Hall. apply (Hall c).
      by apply list_elem_of_In. }
    rewrite (lower_ascii _ _ Han).
    assert (Hmap : map ascii_lower n = n).
    { clear Hd Han. induction Hall as [| c n' (Hc & _) _ IH]; [reflexivity |].
      simpl. rewrite Hc, IH. reflexivity. }
    rewrite Hmap. apply strip_fijo.
    + intros c r'. apply strip_cabeza.
    + intros r' c. apply strip_cola.
Qed.

Lemma X12_testigo :
  isascii (py "  PaLtAs ") = true /\
  strip (lower id (strip (lower id (py "  PaLtAs "))))
  = strip (lower id (py "  PaLtAs ")).
Proof.
  split; [vm_compute; reflexivity |].
  destruct (X12_forma_normal_de_la_entidad id (py "  PaLtAs ")) as (_ & _ & H).
  apply H. vm_compute. reflexivity.
Defined.
